(** * Ink: the browser sniffer (Ink.Dom.Browser_1) and the Sticky widget
      (Ink.UI.Sticky_1), embedded from their JavaScript sources.

    Conventions of the embedding.
    - A JavaScript string is a sequence of code units below 256 (the
      Latin-1 range, which covers every user-agent header value); the
      character tables below ([toLowerCase], white space, line
      terminators) are the ECMAScript ones restricted to that range.
    - A JavaScript number is [NaN] or an exact integer: pixel measurements
      and parsed offsets are whole numbers well inside the range where a
      double is exact.
    - A JavaScript object used as a dictionary is a [gmap string value];
      reading a property that is absent gives [Undefined]. *)

From Stdlib Require Import ZArith QArith Strings.String Strings.Ascii.
From Stdlib Require Import Numbers.DecimalString DecimalZ DecimalPos List Bool Lia.
From stdpp Require Import gmap strings.

Local Open Scope Z_scope.

(** ** JavaScript values *)

Module JS.

Inductive number := NaN | Int (z : Z).

Inductive value :=
| Undefined
| Null
| Boolean (b : bool)
| Num (n : number)
| Str (s : string)
| Ref (handle : nat).          (* an object, e.g. a DOM element *)

(** [o[k]] *)
Definition get (o : gmap string value) (k : string) : value :=
  default Undefined (o !! k).

(** ToBoolean: the test of [x ? a : b] and of [if (x)]. *)
Definition truthy (v : value) : bool :=
  match v with
  | Undefined | Null => false
  | Boolean b => b
  | Num NaN => false
  | Num (Int z) => negb (z =? 0)
  | Str s => negb (String.eqb s EmptyString)
  | Ref _ => true
  end.

(** [typeof v === 'undefined'] *)
Definition is_undefined (v : value) : bool :=
  match v with Undefined => true | _ => false end.

(** Number::toString for the integers, and ToString. The decimal numeral is
    what JavaScript prints for an integer below 10^21 in absolute value,
    and integers are exact below 2^53: the range of every pixel measure
    and configured offset the widget meets. *)
Definition number_to_string (n : number) : string :=
  match n with
  | NaN => "NaN"
  | Int z => NilZero.string_of_int (Z.to_int z)
  end.

Definition to_string (v : value) : string :=
  match v with
  | Undefined => "undefined"
  | Null => "null"
  | Boolean true => "true"
  | Boolean false => "false"
  | Num n => number_to_string n
  | Str s => s
  | Ref _ => "[object Object]"
  end.

(** Character tables (code units 0..255). *)
Definition code (c : ascii) : N := N_of_ascii c.

Definition is_white_space (c : ascii) : bool :=
  let n := code c in
  ((9 <=? n) && (n <=? 13) || (n =? 32) || (n =? 160))%N.

Definition is_line_terminator (c : ascii) : bool :=
  let n := code c in ((n =? 10) || (n =? 13))%N.

Definition is_digit (c : ascii) : bool :=
  let n := code c in ((48 <=? n) && (n <=? 57))%N.

Definition lower_char (c : ascii) : ascii :=
  let n := code c in
  if ((65 <=? n) && (n <=? 90)
      || (192 <=? n) && (n <=? 222) && negb (n =? 215))%N
  then ascii_of_N (n + 32) else c.

(** The canonical form the [/i] flag compares (upper case when that stays
    a single code unit of the range). *)
Definition canonicalize (c : ascii) : ascii :=
  let n := code c in
  if ((97 <=? n) && (n <=? 122)
      || (224 <=? n) && (n <=? 254) && negb (n =? 247))%N
  then ascii_of_N (n - 32) else c.

(** [String.prototype.toLowerCase] *)
Fixpoint toLowerCase (s : string) : string :=
  match s with
  | EmptyString => EmptyString
  | String c s' => String (lower_char c) (toLowerCase s')
  end.

(** [parseInt(string, 10)]: skip leading white space, read a sign, then
    the longest run of decimal digits; [NaN] when that run is empty. *)
Fixpoint skip_white_space (s : string) : string :=
  match s with
  | String c s' => if is_white_space c then skip_white_space s' else s
  | EmptyString => s
  end.

Fixpoint digits_prefix (s : string) : string :=
  match s with
  | String c s' => if is_digit c then String c (digits_prefix s') else EmptyString
  | EmptyString => EmptyString
  end.

Definition digits_value (s : string) : number :=
  match digits_prefix s with
  | EmptyString => NaN
  | ds => match NilEmpty.uint_of_string ds with
          | Some u => Int (Z.of_uint u)
          | None => NaN
          end
  end.

Definition negate (n : number) : number :=
  match n with NaN => NaN | Int z => Int (- z) end.

Definition parseInt_string (s : string) : number :=
  match skip_white_space s with
  | String "-" s' => negate (digits_value s')
  | String "+" s' => digits_value s'
  | s' => digits_value s'
  end.

(** [parseInt(v, 10)]: the argument is first converted with ToString. *)
Definition parseInt (v : value) : number := parseInt_string (to_string v).

(** Arithmetic and comparisons: [NaN] is absorbing for [+] and [-], and
    every comparison with [NaN] is false. *)
Definition add (a b : number) : number :=
  match a, b with Int x, Int y => Int (x + y) | _, _ => NaN end.

Definition sub (a b : number) : number :=
  match a, b with Int x, Int y => Int (x - y) | _, _ => NaN end.

Definition gt (a b : number) : bool :=
  match a, b with Int x, Int y => y <? x | _, _ => false end.

Definition lt (a b : number) : bool :=
  match a, b with Int x, Int y => x <? y | _, _ => false end.

Definition le (a b : number) : bool :=
  match a, b with Int x, Int y => x <=? y | _, _ => false end.

Definition isNaN (n : number) : bool :=
  match n with NaN => true | Int _ => false end.

End JS.

(** ** Regular expressions

  The fragment of ECMAScript regular expressions the sniffer uses:
  literals, character classes, greedy [*] and [+] over a class,
  alternation and numbered capturing groups, matched by backtracking
  from the leftmost possible start. *)

Module RegExp.
Import JS.

Inductive regex :=
| Lit (s : string)                (* literal characters *)
| LitI (s : string)               (* literal characters under the /i flag *)
| Class (p : ascii -> bool)       (* one character of a class *)
| Star (p : ascii -> bool)        (* class*, greedy *)
| Plus (p : ascii -> bool)        (* class+, greedy *)
| Seq (r1 r2 : regex)
| Alt (r1 r2 : regex)
| Group (i : nat) (r : regex).    (* the i-th capturing parenthesis *)

(** What remains of [s] after the literal [p], compared with [eq]. *)
Fixpoint literal (eq : ascii -> ascii -> bool) (p s : string) : option string :=
  match p with
  | EmptyString => Some s
  | String a p' =>
      match s with
      | String b s' => if eq a b then literal eq p' s' else None
      | EmptyString => None
      end
  end.

Definition same_char (a b : ascii) : bool := Ascii.eqb a b.
Definition same_char_i (a b : ascii) : bool :=
  Ascii.eqb (canonicalize a) (canonicalize b).

(** The text [s] lost to become [s']. *)
Definition consumed (s s' : string) : string :=
  substring 0 (String.length s - String.length s') s.

Section Matcher.
Context {R : Type}.

(** Greedy repetition: take one more character while the class allows
    it, and give characters back when the continuation fails. *)
Fixpoint star (p : ascii -> bool) (s : string) (k : string -> option R)
  : option R :=
  match s with
  | String a s' =>
      if p a then
        match star p s' k with
        | Some x => Some x
        | None => k s
        end
      else k s
  | EmptyString => k s
  end.

Fixpoint run (r : regex) (s : string) (c : gmap nat string)
    (k : string -> gmap nat string -> option R) : option R :=
  match r with
  | Lit p =>
      match literal same_char p s with Some s' => k s' c | None => None end
  | LitI p =>
      match literal same_char_i p s with Some s' => k s' c | None => None end
  | Class p =>
      match s with
      | String a s' => if p a then k s' c else None
      | EmptyString => None
      end
  | Star p => star p s (fun s' => k s' c)
  | Plus p =>
      match s with
      | String a s' => if p a then star p s' (fun s'' => k s'' c) else None
      | EmptyString => None
      end
  | Seq r1 r2 => run r1 s c (fun s' c' => run r2 s' c' k)
  | Alt r1 r2 =>
      match run r1 s c k with
      | Some x => Some x
      | None => run r2 s c k
      end
  | Group i r => run r s c (fun s' c' => k s' (<[i := consumed s s']> c'))
  end.
End Matcher.

(** The result of [RegExp.prototype.exec]: the text before the match, the
    match, the text after it and the captures. *)
Record result := {
  before : string;
  matched : string;
  after : string;
  groups : gmap nat string
}.

Definition match_here (r : regex) (s : string) : option (string * gmap nat string) :=
  run r s ∅ (fun s' c => Some (s', c)).

Fixpoint exec_from (r : regex) (pre s : string) : option result :=
  match match_here r s with
  | Some (s', c) =>
      Some {| before := pre; matched := consumed s s'; after := s'; groups := c |}
  | None =>
      match s with
      | String a s' => exec_from r (pre +:+ String a EmptyString) s'
      | EmptyString => None
      end
  end.

Definition exec (r : regex) (s : string) : option result := exec_from r EmptyString s.

(** [r.test(s)] *)
Definition test (r : regex) (s : string) : bool :=
  match exec r s with Some _ => true | None => false end.

Definition group (i : nat) (m : result) : string := default EmptyString (groups m !! i).

(** [s.match(r)[i]], for a string [r] matches. *)
Definition match_group (r : regex) (i : nat) (s : string) : option string :=
  group i <$> exec r s.

(** [s.replace(r, "$i")]: the first match is replaced by its i-th capture;
    a string without a match comes back unchanged. *)
Definition replace_by_group (r : regex) (i : nat) (s : string) : string :=
  match exec r s with
  | Some m => before m +:+ group i m +:+ after m
  | None => s
  end.

(** Character classes. *)
Definition dot (c : ascii) : bool := negb (is_line_terminator c).
Definition space (c : ascii) : bool := is_white_space c.
Definition none_of (l : list ascii) (c : ascii) : bool :=
  negb (existsb (Ascii.eqb c) l).
Definition non_space (c : ascii) : bool := negb (is_white_space c).
Definition non_space_nor (l : list ascii) (c : ascii) : bool :=
  negb (is_white_space c) && none_of l c.
Definition digit_or_dot (c : ascii) : bool := is_digit c || Ascii.eqb c ".".

(** [(a|b|...)] over literal alternatives. *)
Definition any_of (first : string) (others : list string) : regex :=
  fold_left (fun r s => Alt r (Lit s)) others (Lit first).

(** A pattern [r], holding group 2, between two greedy runs of [dot]
    captured as groups 1 and 3: the shape of the version patterns. *)
Definition around (r : regex) : regex :=
  Seq (Group 1 (Star dot)) (Seq r (Group 3 (Star dot))).

End RegExp.

(** ** Ink.Dom.Browser_1 *)

Module InkBrowser.
Import JS RegExp.

Record Browser := {
  IE : bool;
  GECKO : bool;
  OPERA : bool;
  SAFARI : bool;
  KONQUEROR : bool;
  CHROME : bool;
  model : option string;       (* [None] is the sentinel [false] *)
  version : option string;     (* [None] is the sentinel [false] *)
  userAgent : option string;   (* [None] is the sentinel [false] *)
  cssPrefix : option string;   (* [None] is [undefined] *)
  domPrefix : option string    (* [None] is [undefined] *)
}.

(** The object literal the module starts from. *)
Definition initial : Browser :=
  {| IE := false; GECKO := false; OPERA := false; SAFARI := false;
     KONQUEROR := false; CHROME := false;
     model := None; version := None; userAgent := None;
     cssPrefix := None; domPrefix := None |}.

(** Assignments [this.X = ...]. *)
Definition set_IE (b : Browser) : Browser :=
  {| IE := true; GECKO := GECKO b; OPERA := OPERA b; SAFARI := SAFARI b;
     KONQUEROR := KONQUEROR b; CHROME := CHROME b; model := model b;
     version := version b; userAgent := userAgent b;
     cssPrefix := cssPrefix b; domPrefix := domPrefix b |}.
Definition set_GECKO (b : Browser) : Browser :=
  {| IE := IE b; GECKO := true; OPERA := OPERA b; SAFARI := SAFARI b;
     KONQUEROR := KONQUEROR b; CHROME := CHROME b; model := model b;
     version := version b; userAgent := userAgent b;
     cssPrefix := cssPrefix b; domPrefix := domPrefix b |}.
Definition set_OPERA (b : Browser) : Browser :=
  {| IE := IE b; GECKO := GECKO b; OPERA := true; SAFARI := SAFARI b;
     KONQUEROR := KONQUEROR b; CHROME := CHROME b; model := model b;
     version := version b; userAgent := userAgent b;
     cssPrefix := cssPrefix b; domPrefix := domPrefix b |}.
Definition set_SAFARI (b : Browser) : Browser :=
  {| IE := IE b; GECKO := GECKO b; OPERA := OPERA b; SAFARI := true;
     KONQUEROR := KONQUEROR b; CHROME := CHROME b; model := model b;
     version := version b; userAgent := userAgent b;
     cssPrefix := cssPrefix b; domPrefix := domPrefix b |}.
Definition set_KONQUEROR (b : Browser) : Browser :=
  {| IE := IE b; GECKO := GECKO b; OPERA := OPERA b; SAFARI := SAFARI b;
     KONQUEROR := true; CHROME := CHROME b; model := model b;
     version := version b; userAgent := userAgent b;
     cssPrefix := cssPrefix b; domPrefix := domPrefix b |}.
Definition set_CHROME (b : Browser) : Browser :=
  {| IE := IE b; GECKO := GECKO b; OPERA := OPERA b; SAFARI := SAFARI b;
     KONQUEROR := KONQUEROR b; CHROME := true; model := model b;
     version := version b; userAgent := userAgent b;
     cssPrefix := cssPrefix b; domPrefix := domPrefix b |}.
Definition set_model (m : string) (b : Browser) : Browser :=
  {| IE := IE b; GECKO := GECKO b; OPERA := OPERA b; SAFARI := SAFARI b;
     KONQUEROR := KONQUEROR b; CHROME := CHROME b; model := Some m;
     version := version b; userAgent := userAgent b;
     cssPrefix := cssPrefix b; domPrefix := domPrefix b |}.
Definition set_version (v : string) (b : Browser) : Browser :=
  {| IE := IE b; GECKO := GECKO b; OPERA := OPERA b; SAFARI := SAFARI b;
     KONQUEROR := KONQUEROR b; CHROME := CHROME b; model := model b;
     version := Some v; userAgent := userAgent b;
     cssPrefix := cssPrefix b; domPrefix := domPrefix b |}.
Definition set_userAgent (u : string) (b : Browser) : Browser :=
  {| IE := IE b; GECKO := GECKO b; OPERA := OPERA b; SAFARI := SAFARI b;
     KONQUEROR := KONQUEROR b; CHROME := CHROME b; model := model b;
     version := version b; userAgent := Some u;
     cssPrefix := cssPrefix b; domPrefix := domPrefix b |}.
Definition set_prefixes (css dom : string) (b : Browser) : Browser :=
  {| IE := IE b; GECKO := GECKO b; OPERA := OPERA b; SAFARI := SAFARI b;
     KONQUEROR := KONQUEROR b; CHROME := CHROME b; model := model b;
     version := version b; userAgent := userAgent b;
     cssPrefix := Some css; domPrefix := Some dom |}.

(** The patterns, in the order of the source. *)
Definition re_applewebkit : regex := Lit "applewebkit/".
Definition re_chrome_or_crios : regex := Seq (any_of "chrome" ["crios"]) (Lit "/").
Definition re_chrome_version : regex :=
  around (Seq (Lit "chrome/") (Group 2 (Plus non_space))).
Definition rVersion : regex :=
  Seq (Lit "version/") (Group 1 (Plus (none_of [")"; " "]%char))).
Definition re_applewebkit_version : regex :=
  around (Seq (Lit "applewebkit/") (Group 2 (Plus non_space))).
Definition re_opera : regex := Lit "opera".
Definition re_opera_version : regex :=
  around (Seq (Lit "opera") (Seq (Class dot)
            (Group 2 (Plus (non_space_nor ["$"]%char))))).
Definition re_konqueror : regex := Lit "konqueror".
Definition re_konqueror_version : regex :=
  Seq (Group 1 (Star dot))
    (Seq (Lit "konqueror/") (Seq (Group 2 (Plus (none_of [";"]%char)))
       (Seq (Lit ";") (Group 3 (Star dot))))).
Definition re_msie_or_trident : regex := Alt (LitI "msie") (LitI "trident").
Definition re_rv_ie : regex := Seq (Lit "rv:") (Group 1 (Plus digit_or_dot)).
Definition re_msie_version : regex :=
  Seq (Group 1 (Star dot))
    (Seq (Class space) (Seq (Lit "msie") (Seq (Class space)
       (Seq (Group 2 (Plus (none_of [";"]%char)))
          (Seq (Lit ";") (Group 3 (Star dot))))))).
Definition re_gecko : regex := Lit "gecko".
Definition re : regex :=
  Group 1 (any_of "camino"
    ["chimera"; "epiphany"; "minefield"; "firefox"; "firebird"; "phoenix";
     "galeon"; "iceweasel"; "k-meleon"; "seamonkey"; "netscape"; "songbird";
     "sylera"]).
(** The pattern built with [new RegExp] around the model name: the name,
    a slash, then group 2 as a run of characters that are neither white
    space nor a semicolon nor a dollar sign. *)
Definition re_model_version (m : string) : regex :=
  around (Seq (Lit (m +:+ "/")) (Group 2 (Plus (non_space_nor [";"; "$"]%char)))).
Definition reVersion : regex :=
  around (Seq (Lit "rv:") (Group 2 (Plus (none_of [")"]%char)))).

Definition _sniffUserAgent (ua : string) (this : Browser) : Browser :=
  let this := set_userAgent ua this in
  let sAgent := toLowerCase ua in
  if test re_applewebkit sAgent then
    let this := set_prefixes "-webkit-" "Webkit" this in
    if test re_chrome_or_crios sAgent then
      set_version (replace_by_group re_chrome_version 2 sAgent)
        (set_model "chrome" (set_CHROME this))
    else
      let this := set_model "safari" (set_SAFARI this) in
      match match_group rVersion 1 sAgent with
      | Some v => set_version v this
      | None => set_version (replace_by_group re_applewebkit_version 2 sAgent) this
      end
  else if test re_opera sAgent then
    set_prefixes "-o-" "O"
      (set_version (replace_by_group re_opera_version 2 sAgent)
         (set_model "opera" (set_OPERA this)))
  else if test re_konqueror sAgent then
    set_prefixes "-khtml-" "Khtml"
      (set_version (replace_by_group re_konqueror_version 2 sAgent)
         (set_model "konqueror" (set_KONQUEROR this)))
  else if test re_msie_or_trident sAgent then
    let this := set_model "ie" (set_IE this) in
    let this :=
      match match_group re_rv_ie 1 sAgent with
      | Some v => set_version v this
      | None => set_version (replace_by_group re_msie_version 2 sAgent) this
      end in
    set_prefixes "-ms-" "ms" this
  else if test re_gecko sAgent then
    let this := set_GECKO (set_prefixes "-moz-" "Moz" this) in
    match match_group re 1 sAgent with
    | Some m =>
        set_version (replace_by_group (re_model_version m) 2 sAgent)
          (set_model m this)
    | None =>
        let this := set_model "mozilla" this in
        if test reVersion sAgent
        then set_version (replace_by_group reVersion 2 sAgent) this
        else this
    end
  else this.

(** [detectBrowser] at module load: the sniffer runs once, on the object
    literal. *)
Definition detect (ua : string) : Browser := _sniffUserAgent ua initial.

End InkBrowser.

(** ** Ink.UI.Sticky_1 *)

Module InkSticky.
Import JS.

(** The part of the target element the widget reads and writes: the inline
    [style] attribute ([None] when the element has none), the class list
    and the [data-] attributes as [Element.data] returns them (names in
    camel case, values as strings). *)
Record Element := {
  style : option (gmap string string);
  classes : gset string;
  dataset : gmap string string
}.

Record Boundary := { nodeName : string }.

Record Rect := { top : Z; bottom : Z }.

(** What the document reports while one scroll tick runs. *)
Record Layout := {
  clientWidth : Z;        (* viewport.clientWidth *)
  elementWidth : Z;       (* Element.elementWidth(this._rootElement) *)
  elementRect : Rect;
  topRect : Rect;
  bottomRect : Rect
}.

(** What the document reports while the offsets are recomputed. The scroll
    handler is wrapped by [Event.throttle]: [throttled] is the layout it
    sees when the wrapper lets the call through, [None] when the wrapper
    postpones it to a later tick. *)
Record Measure := {
  offsetTop : Z;              (* this._rootElement.offsetTop *)
  offsetLeft : Z;             (* this._rootElement.offsetLeft *)
  computedWidth : string;     (* this._computedStyle.width *)
  topElementHeight : Z;       (* Element.elementHeight(this._topElement) *)
  topElementTop : Z;          (* Element.elementTop(this._topElement) *)
  bottomElementHeight : Z;    (* Element.elementHeight(this._bottomElement) *)
  throttled : option Layout
}.

Record Sticky := {
  _rootElement : Element;
  _options : gmap string value;
  ORIGINAL : gmap string value;
  _topElement : Boundary;
  _bottomElement : Boundary;
  _dims_width : string;               (* this._dims.width *)
  _stickingTo : option string;        (* [None] is [undefined] *)
  console : list string               (* lines written by console.log *)
}.

Definition with_root (e : Element) (w : Sticky) : Sticky :=
  {| _rootElement := e; _options := _options w; ORIGINAL := ORIGINAL w;
     _topElement := _topElement w; _bottomElement := _bottomElement w;
     _dims_width := _dims_width w; _stickingTo := _stickingTo w;
     console := console w |}.

Definition with_options (o : gmap string value) (w : Sticky) : Sticky :=
  {| _rootElement := _rootElement w; _options := o; ORIGINAL := ORIGINAL w;
     _topElement := _topElement w; _bottomElement := _bottomElement w;
     _dims_width := _dims_width w; _stickingTo := _stickingTo w;
     console := console w |}.

(** [this._stickingTo = stickingTo; console.log(stickingTo)] *)
Definition record_mode (m : string) (w : Sticky) : Sticky :=
  {| _rootElement := _rootElement w; _options := _options w;
     ORIGINAL := ORIGINAL w;
     _topElement := _topElement w; _bottomElement := _bottomElement w;
     _dims_width := _dims_width w; _stickingTo := Some m;
     console := console w ++ [m] |}.

(** A call either returns or throws. *)
Inductive outcome (A : Type) :=
| Return (a : A)
| Throw (message : string).
Arguments Return {A} a.
Arguments Throw {A} message.

(** *** The element *)

Definition hasAttribute_style (e : Element) : bool :=
  match style e with Some _ => true | None => false end.

Definition removeAttribute_style (e : Element) : Element :=
  {| style := None; classes := classes e; dataset := dataset e |}.

(** [elm.style[prop] = val] for a value the property accepts. *)
Definition set_style (prop val : string) (e : Element) : Element :=
  {| style := Some (<[prop := val]> (default ∅ (style e)));
     classes := classes e; dataset := dataset e |}.

(** [elm.style[prop] = n + 'px']. The text made from [NaN] is not a length,
    and the style setter leaves the declaration alone for a value that
    does not parse. *)
Definition set_style_px (prop : string) (n : number) (e : Element) : Element :=
  match n with
  | Int _ => set_style prop (number_to_string n +:+ "px") e
  | NaN => e
  end.

(** Modelled from the spec: [Css.addRemoveClassName(elm, name, addRemState)],
    the class-name toggling of Ink.Dom.Css, which is not part of the sources
    here: the class is put on the element when the condition holds and
    taken off when it does not. *)
Definition addRemoveClassName (name : string) (addRemState : bool)
    (e : Element) : Element :=
  {| style := style e;
     classes := if addRemState then {[name]} ∪ classes e
                else classes e ∖ {[name]};
     dataset := dataset e |}.

(** Modelled from the spec: [Element.data(elm)], the extraction of the
    per-element configuration attributes by Ink.Dom.Element, which is not
    part of the sources here: an object with one string property per
    [data-] attribute. *)
Definition Element_data (e : Element) : gmap string value := Str <$> dataset e.

(** *** The scroll handler *)

(** The guard for narrow viewports. The quotient is exact; where the
    source divides by a zero width the second test decides alone. *)
Definition narrow (l : Layout) : bool :=
  negb (Qle_bool (inject_Z (elementWidth l * 100) / inject_Z (clientWidth l))
          (inject_Z 90))
  || (clientWidth l <=? 649).

(** [x ? parseInt(x, 10) : 0] *)
Definition configured (x : value) : number :=
  if truthy x then parseInt x else Int 0.

(** [elementRect.bottom - elementRect.top] *)
Definition elementHeight (l : Layout) : Z :=
  bottom (elementRect l) - top (elementRect l).

(** The three tests of the handler. *)
Definition cond_top (l : Layout) (offsetTop : number) : bool :=
  gt (Int (bottom (topRect l))) offsetTop
  && (elementHeight l <? top (bottomRect l)).
Definition cond_bottom (l : Layout) : bool :=
  top (bottomRect l) <? elementHeight l.
Definition cond_screen (l : Layout) (offsetTop : number) : bool :=
  le (Int (bottom (topRect l))) offsetTop.

(** The tests taken in order, with the style each one writes; the empty
    string when none holds. *)
Definition place (l : Layout) (offsetTop offsetBottom : number) (elm : Element)
  : string * Element :=
  if cond_top l offsetTop
  then ("top", set_style "top" "auto" (set_style "position" "static" elm))
  else if cond_bottom l
  then ("bottom",
        set_style_px "top"
          (sub (sub (Int (top (bottomRect l))) (Int (elementHeight l)))
               offsetBottom)
          (set_style "position" "fixed" elm))
  else if cond_screen l offsetTop
  then ("screen",
        set_style_px "top" offsetTop (set_style "position" "fixed" elm))
  else (EmptyString, elm).

(** [stickingTo && stickingTo !== this._stickingTo] *)
Definition changed (stickingTo : string) (w : Sticky) : bool :=
  negb (String.eqb stickingTo EmptyString)
  && negb (bool_decide (_stickingTo w = Some stickingTo)).

(** The two offsets a tick works with. *)
Definition scroll_offsetTop (this : Sticky) : number :=
  configured (get (ORIGINAL this) "offsetTop").
Definition scroll_offsetBottom (this : Sticky) : number :=
  configured (get (ORIGINAL this) "offsetBottom").

(** The body of [_onScroll]: one scroll tick. *)
Definition _onScroll (l : Layout) (this : Sticky) : Sticky :=
  let elm := _rootElement this in
  if narrow l then
    if hasAttribute_style elm
    then with_root (removeAttribute_style elm) this
    else this
  else
    let offsetTop := scroll_offsetTop this in
    let offsetBottom := scroll_offsetBottom this in
    let '(stickingTo, elm) := place l offsetTop offsetBottom elm in
    let this :=
      if changed stickingTo this then record_mode stickingTo this else this in
    let elm :=
      addRemoveClassName "ink-sticky-sticking" (String.eqb stickingTo "top") elm in
    let elm :=
      addRemoveClassName "ink-sticky-sticking-bottom"
        (String.eqb stickingTo "bottom") elm in
    with_root elm this.

(** The value of [stickingTo] a tick outside the guard arrives at. *)
Definition tick_mode (l : Layout) (this : Sticky) : string :=
  fst (place l (scroll_offsetTop this) (scroll_offsetBottom this)
         (_rootElement this)).

(** [elm.style[prop]], [None] where the inline style has no such
    declaration. *)
Definition inline (prop : string) (this : Sticky) : option string :=
  match style (_rootElement this) with
  | Some st => st !! prop
  | None => None
  end.

(** [this._onScroll()] through the throttling wrapper. *)
Definition throttled_onScroll (m : Measure) (this : Sticky) : Sticky :=
  match throttled m with
  | Some l => _onScroll l this
  | None => this
  end.

(** *** Offsets *)

Definition _calculateOriginalSizes (m : Measure) (this : Sticky) : Sticky :=
  let o := _options this in
  let o :=
    if is_undefined (get o "originalOffsetTop") then
      let o := <["originalOffsetTop" := Num (parseInt (get o "offsetTop"))]> o in
      <["originalOffsetBottom" := Num (parseInt (get o "offsetBottom"))]> o
    else o in
  let o := <["originalTop" := Num (parseInt (Num (Int (offsetTop m))))]> o in
  let o := <["originalLeft" := Num (parseInt (Num (Int (offsetLeft m))))]> o in
  let o := <["originalWidth" := Num (parseInt (Str (_dims_width this)))]> o in
  let o :=
    match get o "originalWidth" with
    | Num n => if isNaN n then <["originalWidth" := Num (Int 0)]> o else o
    | _ => o
    end in
  let o := <["originalWidth" := Num (parseInt (Str (computedWidth m)))]> o in
  with_options o this.

(** [nodeName.toLowerCase() === 'body']. Both boundaries of a constructed
    widget are elements ([Aux.elOrSelector] returns one or throws), so the
    [typeof ... !== 'undefined'] tests of [_calculateOffsets] always pass
    and the rectangles of [_onScroll] are always there. *)
Definition is_body (b : Boundary) : bool :=
  String.eqb (toLowerCase (nodeName b)) "body".

Definition _calculateOffsets (m : Measure) (this : Sticky) : Sticky :=
  let o := _options this in
  let o :=
    if negb (is_body (_topElement this)) then
      <["offsetTop" :=
          Num (add (add (parseInt (Num (Int (topElementHeight m))))
                        (parseInt (Num (Int (topElementTop m)))))
                   (parseInt (get o "originalOffsetTop")))]> o
    else <["offsetTop" := Num (parseInt (get o "originalOffsetTop"))]> o in
  let o :=
    if negb (is_body (_bottomElement this)) then
      <["offsetBottom" :=
          Num (add (parseInt (Num (Int (bottomElementHeight m))))
                   (parseInt (get o "originalOffsetBottom")))]> o
    else <["offsetBottom" := Num (parseInt (get o "originalOffsetBottom"))]> o in
  throttled_onScroll m (with_options o this).

(** [_init], after the two listeners are registered. *)
Definition _init (m : Measure) (this : Sticky) : Sticky :=
  _calculateOffsets m (_calculateOriginalSizes m this).

(** The function [_onResize] hands to [setTimeout]: what one resize (the
    last of a burst) runs. *)
Definition resized (m : Measure) (this : Sticky) : Sticky :=
  let this := with_root (removeAttribute_style (_rootElement this)) this in
  _calculateOffsets m (_calculateOriginalSizes m this).

(** A run of resizes, each with the measures taken at its time. *)
Definition resizes (ms : list Measure) (this : Sticky) : Sticky :=
  fold_left (fun w m => resized m w) ms this.

(** *** The constructor *)

(** Modelled from the spec: [Ink.extendObj], the loader's shallow object
    merging, which is not part of the sources here. The own properties of
    each source are copied onto the destination, one source after the
    other in argument order, so a property of a later source replaces the
    same property of an earlier one. *)
Definition extendObj (destination : gmap string value)
    (sources : list (gmap string value)) : gmap string value :=
  fold_left (fun d s => s ∪ d) sources destination.

(** The first argument of the constructor: a string, with the elements
    [Selector.select] finds for it, an element, or anything else. *)
Inductive selector :=
| Query (found : list Element)
| Node (e : Element)
| Other.

(** The page around the widget: [Aux.elOrSelector(v, fieldName)], which
    gives the element a value designates or throws when there is none. *)
Record Page := {
  elOrSelector : value -> string -> outcome Boundary
}.

Definition defaults : gmap string value :=
  <["offsetBottom" := Num (Int 0)]>
    (<["offsetTop" := Num (Int 0)]>
       (<["topElement" := Undefined]>
          (<["bottomElement" := Undefined]> ∅))).

Definition boundary (p : Page) (v : value) (fieldName : string)
  : outcome Boundary :=
  if negb (is_undefined v) then elOrSelector p v fieldName
  else elOrSelector p (Str "body") "Top Element".

(** The fields the constructor fills before it calls [_init]. [ORIGINAL] is
    a copy made into a fresh object: what is written to [_options] later
    does not reach it. *)
Definition assembled (e : Element) (o : gmap string value) (t b : Boundary)
    (width : string) : Sticky :=
  {| _rootElement := e; _options := o; ORIGINAL := extendObj ∅ [o];
     _topElement := t; _bottomElement := b; _dims_width := width;
     _stickingTo := None; console := [] |}.

Definition new (sel : selector) (options : option (gmap string value))
    (p : Page) (m : Measure) : outcome Sticky :=
  let root :=
    match sel with
    | Other => Throw "[Sticky] :: Invalid selector defined"
    | Node e => Return e
    | Query [] =>
        Throw "[Sticky] :: Can't find any element with the specified selector"
    | Query (e :: _) => Return e
    end in
  match root with
  | Throw msg => Throw msg
  | Return e =>
      let o := extendObj defaults [default ∅ options; Element_data e] in
      match boundary p (get o "topElement") "Top Element" with
      | Throw msg => Throw msg
      | Return t =>
          match boundary p (get o "bottomElement") "Bottom Element" with
          | Throw msg => Throw msg
          | Return b =>
              Return (_init m (assembled e o t b (computedWidth m)))
          end
      end
  end.

(** The element the first argument resolves to. *)
Definition root_of (sel : selector) : option Element :=
  match sel with
  | Node e => Some e
  | Query (e :: _) => Some e
  | _ => None
  end.

End InkSticky.

(** ** Vocabulary of the statements *)

Module Spec.
Import JS RegExp InkBrowser InkSticky.

(** [f] holds of some suffix of [s]. *)
Fixpoint some_suffix (f : string -> bool) (s : string) : bool :=
  f s || match s with
         | String _ s' => some_suffix f s'
         | EmptyString => false
         end.

(** [r] matches at the very start of [s]. *)
Definition matches_here (r : regex) (s : string) : bool :=
  match match_here r s with Some _ => true | None => false end.

(** [pat] occurs in [s]. *)
Definition contains (pat s : string) : bool := some_suffix (String.prefix pat) s.

(** [pat] occurs in [ua] when case is ignored. *)
Definition mentions (pat ua : string) : bool := contains pat (toLowerCase ua).

Inductive family := Chrome | Safari | Opera | Konqueror | Explorer | Gecko | Unknown.

(** The precedence WebKit, Opera, Konqueror, IE/Trident, Gecko, with Chrome
    told from Safari inside the WebKit branch. *)
Definition family_by_precedence (ua : string) : family :=
  if mentions "applewebkit/" ua then
    if mentions "chrome/" ua || mentions "crios/" ua then Chrome else Safari
  else if mentions "opera" ua then Opera
  else if mentions "konqueror" ua then Konqueror
  else if mentions "msie" ua || mentions "trident" ua then Explorer
  else if mentions "gecko" ua then Gecko
  else Unknown.

(** The family flags, in the order IE, GECKO, OPERA, SAFARI, KONQUEROR,
    CHROME. *)
Definition flags (b : Browser) : list bool :=
  [IE b; GECKO b; OPERA b; SAFARI b; KONQUEROR b; CHROME b].

Definition flags_of (f : family) : list bool :=
  match f with
  | Explorer => [true; false; false; false; false; false]
  | Gecko => [false; true; false; false; false; false]
  | Opera => [false; false; true; false; false; false]
  | Safari => [false; false; false; true; false; false]
  | Konqueror => [false; false; false; false; true; false]
  | Chrome => [false; false; false; false; false; true]
  | Unknown => [false; false; false; false; false; false]
  end.

Definition count_true (l : list bool) : nat := List.length (List.filter id l).

(** The white-space-free token that starts [s]. *)
Fixpoint token (s : string) : string :=
  match s with
  | String c s' => if is_white_space c then EmptyString else String c (token s')
  | EmptyString => EmptyString
  end.

(** What follows that token. *)
Fixpoint after_token (s : string) : string :=
  match s with
  | String c s' => if is_white_space c then s else after_token s'
  | EmptyString => EmptyString
  end.

(** Every character of [s] is in the class [p]. *)
Fixpoint all_chars (p : ascii -> bool) (s : string) : bool :=
  match s with
  | String c s' => p c && all_chars p s'
  | EmptyString => true
  end.

(** [s] starts with chrome/ followed by a character that is not white
    space: the place the version pattern can anchor at. *)
Definition version_marker (s : string) : bool :=
  match literal same_char "chrome/" s with
  | Some (String c _) => non_space c
  | _ => false
  end.

(** The coercion the specification describes for an offset: the parsed
    number, and 0 where the text does not parse. *)
Definition NaN_to_zero (x : value) : number :=
  match parseInt x with
  | NaN => Int 0
  | n => n
  end.

(** The resolution order the specification describes: the explicit option,
    else the data attribute, else the default. *)
Definition explicit_first (options : gmap string value) (e : Element)
    (k : string) : value :=
  match options !! k with
  | Some v => v
  | None =>
      match dataset e !! k with
      | Some s => Str s
      | None => get defaults k
      end
  end.

(** The resolution order of the constructor: the data attribute, else the
    explicit option, else the default. *)
Definition data_first (options : gmap string value) (e : Element)
    (k : string) : value :=
  match dataset e !! k with
  | Some s => Str s
  | None =>
      match options !! k with
      | Some v => v
      | None => get defaults k
      end
  end.

End Spec.

(** ** Concrete pages and user agents *)

Module Examples.
Import JS InkBrowser InkSticky.

Definition ua_chrome : string :=
  "Mozilla/5.0 (X11; Linux x86_64) AppleWebKit/537.36 (KHTML, like Gecko) Chrome/30.0.1599.101 Safari/537.36".
Definition ua_crios : string :=
  "Mozilla/5.0 (iPhone; CPU iPhone OS 7_0 like Mac OS X) AppleWebKit/537.51.1 (KHTML, like Gecko) CriOS/30.0.1599.12 Mobile/11A465 Safari/8536.25".
Definition ua_firefox : string :=
  "Mozilla/5.0 (X11; Ubuntu; Linux x86_64; rv:22.0) Gecko/20100101 Firefox/22.0".

(** A target without inline style, classes or data attributes, and the
    same target carrying [data-offset-top="30"]. *)
Definition menu : Element := {| style := None; classes := ∅; dataset := ∅ |}.
Definition menu_data : Element :=
  {| style := None; classes := ∅; dataset := {["offsetTop" := "30"]} |}.
Definition menu_styled : Element :=
  {| style := Some {["color" := "red"]};
     classes := {["ink-sticky-sticking"]}; dataset := ∅ |}.

(** A page with a body and a header [#hdr]. *)
Definition page : Page :=
  {| elOrSelector := fun v fieldName =>
       match v with
       | Str "body" => Return {| nodeName := "BODY" |}
       | Str "#hdr" => Return {| nodeName := "DIV" |}
       | _ => Throw (fieldName +:+ " not found")
       end |}.

Definition layout (cw ew eb tb bt : Z) : Layout :=
  {| clientWidth := cw; elementWidth := ew;
     elementRect := {| top := 0; bottom := eb |};
     topRect := {| top := 0; bottom := tb |};
     bottomRect := {| top := bt; bottom := bt + 40 |} |}.

(** A wide viewport, a 100px high target, the header's bottom edge at 60
    and the bottom boundary far away; the same with the bottom boundary at
    70, and at exactly 100. *)
Definition far : Layout := layout 1000 200 100 60 1000.
Definition near : Layout := layout 1000 200 100 60 70.
Definition touching : Layout := layout 1000 200 100 60 100.
Definition phone : Layout := layout 480 200 100 60 1000.

(** The header is 50px high and starts at 10. *)
Definition measure (t : option Layout) : Measure :=
  {| offsetTop := 5; offsetLeft := 6; computedWidth := "200px";
     topElementHeight := 50; topElementTop := 10; bottomElementHeight := 30;
     throttled := t |}.

Definition options20 : gmap string value :=
  <["offsetTop" := Num (Int 20)]> (<["topElement" := Str "#hdr"]> ∅).
Definition options_abc : gmap string value :=
  <["offsetTop" := Str "abc"]> ∅.

(** The widget [new Sticky(menu, {offsetTop: 20, topElement: '#hdr'})]
    makes on [page], the throttled handler running on [far]. *)
Definition constructed : Sticky :=
  _init (measure (Some far))
    (assembled menu (extendObj defaults [options20; Element_data menu])
       {| nodeName := "DIV" |} {| nodeName := "BODY" |} "200px").

(** The widget [new Sticky(menu, {offsetTop: 20, topElement: '#hdr'})]
    makes when the menu carries [data-offset-top="30"]. *)
Definition constructed_over_data : Sticky :=
  _init (measure None)
    (assembled menu_data (extendObj defaults [options20; Element_data menu_data])
       {| nodeName := "DIV" |} {| nodeName := "BODY" |} "200px").

(** A widget as the constructor leaves it, for a given [ORIGINAL]. *)
Definition widget (e : Element) (original : gmap string value) : Sticky :=
  {| _rootElement := e; _options := original; ORIGINAL := original;
     _topElement := {| nodeName := "DIV" |};
     _bottomElement := {| nodeName := "BODY" |};
     _dims_width := "200px"; _stickingTo := None; console := [] |}.

End Examples.

(** ** Ink.Dom.Browser_1: referrer and diagnostic dump *)

Module InkBrowserPage.
Import JS RegExp InkBrowser.

(** [window.escape]: letters, digits and the characters of [@*_+-./] stay;
    any other code unit below 256 becomes a percent sign and two upper-case
    hexadecimal digits. *)
Definition escape_keeps (c : ascii) : bool :=
  let n := code c in
  ((48 <=? n) && (n <=? 57) || (65 <=? n) && (n <=? 90)
   || (97 <=? n) && (n <=? 122))%N
  || existsb (Ascii.eqb c) ["@"; "*"; "_"; "+"; "-"; "."; "/"]%char.

Definition hex_digit (n : N) : ascii :=
  if (n <? 10)%N then ascii_of_N (48 + n) else ascii_of_N (55 + n).

Definition escape_char (c : ascii) : string :=
  if escape_keeps c then String c EmptyString
  else String "%" (String (hex_digit (code c / 16))
                     (String (hex_digit (code c mod 16)) EmptyString)).

Fixpoint escape (s : string) : string :=
  match s with
  | EmptyString => EmptyString
  | String c s' => escape_char c +:+ escape s'
  end.

(** [setReferrer], as the value it stores in [this.referrer]: [None] is the
    sentinel [false]. The argument is [document.referrer]. *)
Definition setReferrer (referrer : string) : option string :=
  if truthy (Str referrer)
     && truthy (Num (Int (Z.of_nat (String.length referrer))))
  then Some (escape referrer)
  else None.

(** The line feed. *)
Definition LF : string := String (ascii_of_N 10) EmptyString.

(** [Array.prototype.toString]: the elements joined by commas. *)
Fixpoint join (l : list string) : string :=
  match l with
  | [] => EmptyString
  | [x] => x
  | x :: l' => x +:+ "," +:+ join l'
  end.

(** ToString of a field that holds a string or the sentinel [false]. *)
Definition string_or_false (o : option string) : string :=
  match o with
  | Some s => s
  | None => to_string (Boolean false)
  end.

(** [debug], as the text it hands to [alert]. *)
Definition debug (this : Browser) : string :=
  let str := "known browsers: (ie, gecko, opera, safari, konqueror) " +:+ LF in
  let str := str +:+ join (map (fun b => to_string (Boolean b))
                            [IE this; GECKO this; OPERA this; SAFARI this;
                             KONQUEROR this]) +:+ LF in
  let str := str +:+ "model -> " +:+ string_or_false (model this) +:+ LF in
  let str := str +:+ "version -> " +:+ string_or_false (version this) +:+ LF in
  let str := str +:+ LF in
  str +:+ "original UA -> " +:+ string_or_false (userAgent this).

End InkBrowserPage.

(** ** Ink.UI.Sticky_1: the resize handler and its timer *)

Module InkStickyTimers.
Import JS InkSticky.

(** The widget together with the timers it has pending in the event loop,
    oldest first. Timer identifiers are positive, as [setTimeout] gives
    them. [None] in [_resizeTimeout] is [undefined]. *)
Record Timed := {
  widget : Sticky;
  _resizeTimeout : option positive;
  timers : list positive;
  next_timer : positive
}.

(** The state the constructor leaves. *)
Definition started (w : Sticky) : Timed :=
  {| widget := w; _resizeTimeout := None; timers := []; next_timer := 1%positive |}.

(** [clearTimeout(id)] *)
Definition clearTimeout (id : positive) (l : list positive) : list positive :=
  List.filter (fun t => negb (Pos.eqb t id)) l.

(** [_onResize]: cancel the timer of the previous call, if any, and set a
    new one. *)
Definition _onResize (t : Timed) : Timed :=
  let pending :=
    match _resizeTimeout t with
    | Some id => clearTimeout id (timers t)
    | None => timers t
    end in
  {| widget := widget t;
     _resizeTimeout := Some (next_timer t);
     timers := pending ++ [next_timer t];
     next_timer := Pos.succ (next_timer t) |}.

(** The event loop runs the oldest pending timer: its callback is the
    recomputation [resized], on what the page measures at that time. *)
Definition timeout (m : Measure) (t : Timed) : Timed :=
  match timers t with
  | [] => t
  | _ :: rest =>
      {| widget := resized m (widget t);
         _resizeTimeout := _resizeTimeout t;
         timers := rest;
         next_timer := next_timer t |}
  end.

Inductive event :=
| Resize
| Timeout (m : Measure).

Definition step (t : Timed) (e : event) : Timed :=
  match e with
  | Resize => _onResize t
  | Timeout m => timeout m t
  end.

Definition run (es : list event) (t : Timed) : Timed := fold_left step es t.

(** No timer is pending but, at most, the one of the latest call. *)
Definition at_most_latest (t : Timed) : Prop :=
  timers t = []
  \/ exists id, timers t = [id] /\ _resizeTimeout t = Some id.

End InkStickyTimers.

(** ** More vocabulary *)

Module Spec2.
Import JS RegExp InkBrowser InkSticky.

Fixpoint take_while (p : ascii -> bool) (s : string) : string :=
  match s with
  | String c s' => if p c then String c (take_while p s') else EmptyString
  | EmptyString => EmptyString
  end.

Fixpoint drop_while (p : ascii -> bool) (s : string) : string :=
  match s with
  | String c s' => if p c then drop_while p s' else s
  | EmptyString => EmptyString
  end.

(** The run of [cls] characters after the first place of [s] where [p]
    is followed by a [cls] character. *)
Fixpoint first_run (p : string) (cls : ascii -> bool) (s : string)
  : option string :=
  let later :=
    match s with
    | String _ s' => first_run p cls s'
    | EmptyString => None
    end in
  match literal same_char p s with
  | Some (String a v) =>
      if cls a then Some (String a (take_while cls v)) else later
  | _ => later
  end.

(** The product names the Gecko branch knows. *)
Definition gecko_products : list string :=
  ["camino"; "chimera"; "epiphany"; "minefield"; "firefox"; "firebird";
   "phoenix"; "galeon"; "iceweasel"; "k-meleon"; "seamonkey"; "netscape";
   "songbird"; "sylera"].

(** The vendor prefixes of each family. *)
Definition prefixes_of (f : Spec.family) : option string * option string :=
  match f with
  | Spec.Chrome | Spec.Safari => (Some "-webkit-", Some "Webkit")
  | Spec.Opera => (Some "-o-", Some "O")
  | Spec.Konqueror => (Some "-khtml-", Some "Khtml")
  | Spec.Explorer => (Some "-ms-", Some "ms")
  | Spec.Gecko => (Some "-moz-", Some "Moz")
  | Spec.Unknown => (None, None)
  end.

(** The fields of the profile other than the user agent itself. *)
Definition profile (b : Browser)
  : list bool * option string * option string * option string * option string :=
  (Spec.flags b, model b, version b, cssPrefix b, domPrefix b).

(** Whether the target carries a class. *)
Definition has_class (name : string) (w : Sticky) : bool :=
  bool_decide (name ∈ classes (_rootElement w)).

End Spec2.

Module Examples2.
Import JS InkBrowser InkSticky.

Definition ua_safari : string :=
  "Mozilla/5.0 (Macintosh; Intel Mac OS X 10_9) AppleWebKit/537.71 (KHTML, like Gecko) Version/7.0 Safari/537.71".
Definition ua_ie11 : string :=
  "Mozilla/5.0 (Windows NT 6.3; Trident/7.0; rv:11.0) like Gecko".
Definition ua_ie8 : string :=
  "Mozilla/4.0 (compatible; MSIE 8.0; Windows NT 6.1; Trident/4.0)".

(** The header's bottom edge has scrolled above the offset 20. *)
Definition scrolled : Layout := Examples.layout 1000 200 100 10 1000.

(** A page whose only boundary is the body. *)
Definition plain_page : Page :=
  {| elOrSelector := fun v fieldName =>
       match v with
       | Str "body" => Return {| nodeName := "BODY" |}
       | _ => Throw (fieldName +:+ " not found")
       end |}.

Definition auto_measure : Measure :=
  {| offsetTop := 5; offsetLeft := 6; computedWidth := "auto";
     topElementHeight := 50; topElementTop := 10; bottomElementHeight := 30;
     throttled := None |}.

End Examples2.

(** ** Facts about the JavaScript layer *)

Section ParseInt.
Import JS.

Lemma digits_prefix_string_of_uint (d : Decimal.uint) :
  digits_prefix (NilEmpty.string_of_uint d) = NilEmpty.string_of_uint d.
Proof. induction d; simpl; try rewrite IHd; reflexivity. Qed.

Lemma digits_value_string_of_uint (d : Decimal.uint) :
  d <> Decimal.Nil ->
  digits_value (NilEmpty.string_of_uint d) = Int (Z.of_uint d).
Proof.
  intros Hd. unfold digits_value.
  rewrite digits_prefix_string_of_uint.
  pose proof (NilEmpty.usu d) as Hu.
  destruct d; try congruence; simpl in *; rewrite Hu; reflexivity.
Qed.

Lemma parseInt_string_of_uint (d : Decimal.uint) :
  d <> Decimal.Nil ->
  parseInt_string (NilEmpty.string_of_uint d) = Int (Z.of_uint d)
  /\ parseInt_string (String "-" (NilEmpty.string_of_uint d)) = Int (- Z.of_uint d).
Proof.
  intros Hd. pose proof (digits_value_string_of_uint d Hd) as Hv.
  split.
  - destruct d; try congruence; exact Hv.
  - unfold parseInt_string. simpl. rewrite Hv. reflexivity.
Qed.

(** [parseInt] reads back the decimal numeral of an integer. *)
Lemma parseInt_Int (z : Z) : parseInt (Num (Int z)) = Int z.
Proof.
  unfold parseInt, to_string, number_to_string.
  destruct z as [|p|p]; [reflexivity| |]; simpl.
  - pose proof (Unsigned.to_uint_nonnil p) as Hn.
    destruct (parseInt_string_of_uint _ Hn) as [H _].
    unfold NilZero.string_of_uint.
    destruct (Pos.to_uint p) eqn:E; try congruence; rewrite H;
      unfold Z.of_uint; rewrite <- E, DecimalPos.Unsigned.of_to; reflexivity.
  - pose proof (Unsigned.to_uint_nonnil p) as Hn.
    destruct (parseInt_string_of_uint _ Hn) as [_ H].
    unfold NilZero.string_of_uint.
    destruct (Pos.to_uint p) eqn:E; try congruence; rewrite H;
      unfold Z.of_uint; rewrite <- E, DecimalPos.Unsigned.of_to; reflexivity.
Qed.

Lemma parseInt_Num (n : number) : parseInt (Num n) = n.
Proof. destruct n; [reflexivity | apply parseInt_Int]. Qed.
End ParseInt.

Section ScrollFacts.
Import JS InkSticky.

(** The guard, in whole numbers: the viewport is at most 649 wide, or the
    target is wider than 90% of it. *)
Lemma narrow_iff (l : Layout) :
  narrow l = true <->
  clientWidth l <= 649 \/ 90 * clientWidth l < 100 * elementWidth l.
Proof.
  unfold narrow. rewrite orb_true_iff, Z.leb_le, negb_true_iff.
  split.
  - intros [H | H]; [| left; exact H].
    destruct (Z_le_gt_dec (clientWidth l) 649) as [Hc | Hc]; [left; exact Hc |].
    right.
    destruct (Qle_bool _ _) eqn:E in H; [discriminate |].
    assert (Hn : ~ (inject_Z (elementWidth l * 100) / inject_Z (clientWidth l)
                      <= inject_Z 90)%Q)
      by (rewrite <- Qle_bool_iff; congruence).
    apply Z.lt_nge. intros Hle. apply Hn.
    destruct (clientWidth l) as [|p|p] eqn:Ec; try lia.
    unfold Qle, Qdiv, Qmult, Qinv, inject_Z; simpl. lia.
  - intros [H | H]; [right; exact H |].
    destruct (Z_le_gt_dec (clientWidth l) 649) as [Hc | Hc]; [right; exact Hc |].
    left.
    destruct (Qle_bool _ _) eqn:E; [| reflexivity].
    apply Qle_bool_iff in E. exfalso.
    destruct (clientWidth l) as [|p|p] eqn:Ec; try lia.
    unfold Qle, Qdiv, Qmult, Qinv, inject_Z in E; simpl in E. lia.
Qed.
End ScrollFacts.

Section ScrollTick.
Import JS InkSticky Examples.

Lemma onScroll_wide (l : Layout) (w : Sticky) :
  narrow l = false ->
  _onScroll l w =
    let placed := place l (scroll_offsetTop w) (scroll_offsetBottom w)
                    (_rootElement w) in
    with_root
      (addRemoveClassName "ink-sticky-sticking-bottom"
         (String.eqb (fst placed) "bottom")
         (addRemoveClassName "ink-sticky-sticking"
            (String.eqb (fst placed) "top") (snd placed)))
      (if changed (fst placed) w then record_mode (fst placed) w else w).
Proof.
  intros H. unfold _onScroll. rewrite H.
  destruct (place _ _ _ _) as [st elm]. reflexivity.
Qed.

Lemma stickingTo_after (st : string) (w : Sticky) (e : Element) :
  st <> EmptyString ->
  _stickingTo (with_root e (if changed st w then record_mode st w else w))
  = Some st.
Proof.
  intros Hst. unfold changed.
  destruct (String.eqb_spec st EmptyString) as [|_]; [contradiction |].
  simpl. destruct (bool_decide_reflect (_stickingTo w = Some st)); simpl; auto.
Qed.

Lemma inline_with_root (prop : string) (e : Element) (w : Sticky) :
  inline prop (with_root e w) = match style e with
                                | Some st => st !! prop
                                | None => None
                                end.
Proof. reflexivity. Qed.

Lemma tick_mode_order (l : Layout) (w : Sticky) :
  tick_mode l w =
    if cond_top l (scroll_offsetTop w) then "top"
    else if cond_bottom l then "bottom"
    else if cond_screen l (scroll_offsetTop w) then "screen"
    else EmptyString.
Proof.
  unfold tick_mode, place.
  destruct (cond_top _ _); [reflexivity |].
  destruct (cond_bottom _); [reflexivity |].
  destruct (cond_screen _ _); reflexivity.
Qed.

Lemma cond_bottom_excludes_top (l : Layout) (ot : number) :
  top (bottomRect l) < elementHeight l ->
  cond_top l ot = false /\ cond_bottom l = true.
Proof.
  intros H. unfold cond_top, cond_bottom. split.
  - apply andb_false_iff. right. apply Z.ltb_ge. lia.
  - apply Z.ltb_lt. exact H.
Qed.



(** C3. When the target is wider than 90% of the viewport, or the
    viewport is at most 649 pixels wide, the tick removes the inline style
    attribute and does nothing else: the stored mode, the console, the
    class list, the options and every other field are as before. *)
Theorem C3_narrow_viewport_early_exit (l : Layout) (w : Sticky) :
  clientWidth l <= 649 \/ 90 * clientWidth l < 100 * elementWidth l ->
  _onScroll l w = with_root (removeAttribute_style (_rootElement w)) w
  /\ style (_rootElement (_onScroll l w)) = None
  /\ classes (_rootElement (_onScroll l w)) = classes (_rootElement w)
  /\ _stickingTo (_onScroll l w) = _stickingTo w
  /\ console (_onScroll l w) = console w.
Proof.
  intros H. apply narrow_iff in H.
  assert (E : _onScroll l w = with_root (removeAttribute_style (_rootElement w)) w).
  { unfold _onScroll. rewrite H.
    destruct w as [[st cl ds] o og t b d s c]; destruct st; reflexivity. }
  rewrite E. repeat split.
Qed.

Lemma C3_narrow_viewport_early_exit_witness :
  (clientWidth phone <= 649 \/ 90 * clientWidth phone < 100 * elementWidth phone)
  /\ _onScroll phone (widget menu_styled options20)
     = with_root (removeAttribute_style menu_styled) (widget menu_styled options20)
  /\ classes (_rootElement (_onScroll phone (widget menu_styled options20)))
     = classes menu_styled.
Proof.
  assert (H : clientWidth phone <= 649
              \/ 90 * clientWidth phone < 100 * elementWidth phone)
    by (left; vm_compute; discriminate).
  destruct (C3_narrow_viewport_early_exit phone (widget menu_styled options20) H)
    as (E & _ & Hc & _).
  exact (conj H (conj E Hc)).
Defined.

(** C4 as the specification words it does not hold: in TOP mode the
    handler writes an inline position. *)
Lemma C4_counterexample :
  ~ (forall (l : Layout) (w : Sticky),
       narrow l = false ->
       gt (Int (bottom (topRect l))) (scroll_offsetTop w) = true ->
       elementHeight l < top (bottomRect l) ->
       inline "position" (_onScroll l w) = None).
Proof.
  intros H.
  specialize (H far (widget menu options20)).
  vm_compute in H.
  specialize (H eq_refl eq_refl eq_refl). discriminate H.
Qed.

(** C4, amended. Outside the guard, when the top boundary's bottom edge
    is below the configured top offset and the bottom boundary's top edge
    is farther than the target's height, the tick selects TOP, records
    it, and writes the inline declarations position: static and
    top: auto; the class ink-sticky-sticking is put on the target and
    ink-sticky-sticking-bottom is taken off. *)
Theorem C4_top_mode_writes_static (l : Layout) (w : Sticky) :
  narrow l = false ->
  gt (Int (bottom (topRect l))) (scroll_offsetTop w) = true ->
  elementHeight l < top (bottomRect l) ->
  tick_mode l w = "top"
  /\ _stickingTo (_onScroll l w) = Some "top"
  /\ inline "position" (_onScroll l w) = Some "static"
  /\ inline "top" (_onScroll l w) = Some "auto"
  /\ classes (_rootElement (_onScroll l w))
     = ({["ink-sticky-sticking"]} ∪ classes (_rootElement w))
         ∖ {["ink-sticky-sticking-bottom"]}.
Proof.
  intros Hn Ht Hb.
  assert (Hc : cond_top l (scroll_offsetTop w) = true)
    by (unfold cond_top; rewrite Ht; apply Z.ltb_lt; exact Hb).
  assert (Hp : place l (scroll_offsetTop w) (scroll_offsetBottom w) (_rootElement w)
               = ("top", set_style "top" "auto"
                           (set_style "position" "static" (_rootElement w))))
    by (unfold place; rewrite Hc; reflexivity).
  split; [unfold tick_mode; rewrite Hp; reflexivity |].
  rewrite (onScroll_wide l w Hn), Hp. cbv zeta. cbn [fst snd].
  split; [apply stickingTo_after; discriminate |].
  rewrite !inline_with_root. simpl.
  split; [rewrite lookup_insert_ne by discriminate; apply lookup_insert_eq |].
  split; [apply lookup_insert_eq |].
  destruct (changed "top" w); reflexivity.
Qed.

Lemma C4_top_mode_writes_static_witness :
  narrow far = false
  /\ gt (Int (bottom (topRect far))) (scroll_offsetTop (widget menu options20)) = true
  /\ elementHeight far < top (bottomRect far)
  /\ inline "position" (_onScroll far (widget menu options20)) = Some "static"
  /\ inline "top" (_onScroll far (widget menu options20)) = Some "auto".
Proof.
  assert (Hn : narrow far = false) by (vm_compute; reflexivity).
  assert (Ht : gt (Int (bottom (topRect far)))
                 (scroll_offsetTop (widget menu options20)) = true)
    by (vm_compute; reflexivity).
  assert (Hb : elementHeight far < top (bottomRect far))
    by (vm_compute; reflexivity).
  destruct (C4_top_mode_writes_static far (widget menu options20) Hn Ht Hb)
    as (_ & _ & Hp & Hq & _).
  exact (conj Hn (conj Ht (conj Hb (conj Hp Hq)))).
Defined.

(** C10. Outside the guard, when the top boundary's bottom edge is below
    the configured top offset and the bottom boundary's top edge is
    exactly the target's height, no test holds: the inline style is what
    it was, both sticking classes are taken off, and neither the stored
    mode nor the console changes. *)
Theorem C10_touching_bottom_boundary (l : Layout) (w : Sticky) :
  narrow l = false ->
  gt (Int (bottom (topRect l))) (scroll_offsetTop w) = true ->
  top (bottomRect l) = elementHeight l ->
  cond_top l (scroll_offsetTop w) = false
  /\ cond_bottom l = false
  /\ cond_screen l (scroll_offsetTop w) = false
  /\ tick_mode l w = EmptyString
  /\ style (_rootElement (_onScroll l w)) = style (_rootElement w)
  /\ classes (_rootElement (_onScroll l w))
     = (classes (_rootElement w) ∖ {["ink-sticky-sticking"]})
         ∖ {["ink-sticky-sticking-bottom"]}
  /\ _stickingTo (_onScroll l w) = _stickingTo w
  /\ console (_onScroll l w) = console w.
Proof.
  intros Hn Ht He.
  assert (H1 : cond_top l (scroll_offsetTop w) = false)
    by (unfold cond_top; apply andb_false_iff; right; apply Z.ltb_ge; lia).
  assert (H2 : cond_bottom l = false)
    by (unfold cond_bottom; apply Z.ltb_ge; lia).
  assert (H3 : cond_screen l (scroll_offsetTop w) = false).
  { unfold cond_screen. unfold gt in Ht.
    destruct (scroll_offsetTop w) as [|t]; [discriminate |]. simpl.
    apply Z.ltb_lt in Ht. apply Z.leb_gt. exact Ht. }
  assert (Hp : place l (scroll_offsetTop w) (scroll_offsetBottom w) (_rootElement w)
               = (EmptyString, _rootElement w))
    by (unfold place; rewrite H1, H2, H3; reflexivity).
  repeat (split; [assumption |]).
  split; [unfold tick_mode; rewrite Hp; reflexivity |].
  rewrite (onScroll_wide l w Hn), Hp. cbv zeta. cbn [fst snd].
  repeat split.
Qed.

Lemma C10_touching_bottom_boundary_witness :
  narrow touching = false
  /\ gt (Int (bottom (topRect touching)))
       (scroll_offsetTop (widget menu_styled options20)) = true
  /\ top (bottomRect touching) = elementHeight touching
  /\ style (_rootElement (_onScroll touching (widget menu_styled options20)))
     = style menu_styled
  /\ _stickingTo (_onScroll touching (widget menu_styled options20)) = None.
Proof.
  assert (Hn : narrow touching = false) by (vm_compute; reflexivity).
  assert (Ht : gt (Int (bottom (topRect touching)))
                 (scroll_offsetTop (widget menu_styled options20)) = true)
    by (vm_compute; reflexivity).
  assert (He : top (bottomRect touching) = elementHeight touching)
    by (vm_compute; reflexivity).
  destruct (C10_touching_bottom_boundary touching (widget menu_styled options20)
              Hn Ht He) as (_ & _ & _ & _ & Hs & _ & Hm & _).
  exact (conj Hn (conj Ht (conj He (conj Hs Hm)))).
Defined.
End ScrollTick.

Section Offsets.
Import JS InkSticky Spec Examples.

Lemma onScroll_with_options (l : Layout) (o : gmap string value) (w : Sticky) :
  _onScroll l (with_options o w) = with_options o (_onScroll l w).
Proof.
  unfold _onScroll, scroll_offsetTop, scroll_offsetBottom. simpl.
  destruct (narrow l).
  - destruct (hasAttribute_style _); reflexivity.
  - destruct (place _ _ _ _) as [st elm].
    unfold changed. simpl.
    destruct (negb (st =? EmptyString)%string && _); reflexivity.
Qed.

Lemma onScroll_frame (l : Layout) (w : Sticky) :
  _options (_onScroll l w) = _options w
  /\ ORIGINAL (_onScroll l w) = ORIGINAL w
  /\ _topElement (_onScroll l w) = _topElement w
  /\ _bottomElement (_onScroll l w) = _bottomElement w.
Proof.
  unfold _onScroll.
  destruct (narrow l).
  - destruct (hasAttribute_style _); repeat split.
  - destruct (place _ _ _ _) as [st elm].
    destruct (changed st w); repeat split.
Qed.

Lemma throttled_frame (m : Measure) (w : Sticky) :
  _options (throttled_onScroll m w) = _options w
  /\ ORIGINAL (throttled_onScroll m w) = ORIGINAL w
  /\ _topElement (throttled_onScroll m w) = _topElement w
  /\ _bottomElement (throttled_onScroll m w) = _bottomElement w.
Proof.
  unfold throttled_onScroll.
  destruct (throttled m); [apply onScroll_frame | repeat split].
Qed.

Lemma calculateOffsets_frame (m : Measure) (w : Sticky) :
  ORIGINAL (_calculateOffsets m w) = ORIGINAL w
  /\ _topElement (_calculateOffsets m w) = _topElement w
  /\ _bottomElement (_calculateOffsets m w) = _bottomElement w
  /\ _rootElement (_calculateOffsets m w)
     = _rootElement (throttled_onScroll m w).
Proof.
  unfold _calculateOffsets.
  match goal with
  | |- context [throttled_onScroll m (with_options ?o w)] =>
      destruct (throttled_frame m (with_options o w)) as (_ & H2 & H3 & H4);
      rewrite H2, H3, H4; repeat split;
      unfold throttled_onScroll; destruct (throttled m); [| reflexivity];
      rewrite onScroll_with_options; reflexivity
  end.
Qed.

Lemma calculateOriginalSizes_frame (m : Measure) (w : Sticky) :
  ORIGINAL (_calculateOriginalSizes m w) = ORIGINAL w
  /\ _topElement (_calculateOriginalSizes m w) = _topElement w
  /\ _bottomElement (_calculateOriginalSizes m w) = _bottomElement w
  /\ _rootElement (_calculateOriginalSizes m w) = _rootElement w.
Proof. repeat split. Qed.

Lemma resized_frame (m : Measure) (w : Sticky) :
  ORIGINAL (resized m w) = ORIGINAL w
  /\ _topElement (resized m w) = _topElement w
  /\ _bottomElement (resized m w) = _bottomElement w.
Proof.
  unfold resized.
  match goal with
  | |- context [_calculateOffsets m ?x] =>
      destruct (calculateOffsets_frame m x) as (H1 & H2 & H3 & _);
      rewrite H1, H2, H3
  end.
  repeat split.
Qed.

Lemma get_insert_eq (o : gmap string value) (k : string) (v : value) :
  get (<[k := v]> o) k = v.
Proof. unfold get. rewrite lookup_insert_eq. reflexivity. Qed.

Lemma get_insert_ne (o : gmap string value) (k k' : string) (v : value) :
  k <> k' -> get (<[k := v]> o) k' = get o k'.
Proof. intros H. unfold get. rewrite lookup_insert_ne by exact H. reflexivity. Qed.

(** The options the recomputation leaves behind. *)
Lemma calculateOffsets_options (m : Measure) (w : Sticky) :
  get (_options (_calculateOffsets m w)) "offsetTop"
  = Num (if is_body (_topElement w)
         then parseInt (get (_options w) "originalOffsetTop")
         else add (add (Int (topElementHeight m)) (Int (topElementTop m)))
                (parseInt (get (_options w) "originalOffsetTop")))
  /\ get (_options (_calculateOffsets m w)) "offsetBottom"
     = Num (if is_body (_bottomElement w)
            then parseInt (get (_options w) "originalOffsetBottom")
            else add (Int (bottomElementHeight m))
                   (parseInt (get (_options w) "originalOffsetBottom")))
  /\ forall k : string,
       k <> "offsetTop" -> k <> "offsetBottom" ->
       get (_options (_calculateOffsets m w)) k = get (_options w) k.
Proof.
  unfold _calculateOffsets.
  match goal with
  | |- context [throttled_onScroll m (with_options ?o w)] =>
      destruct (throttled_frame m (with_options o w)) as (H1 & _); rewrite H1
  end.
  simpl. rewrite !parseInt_Int.
  destruct (is_body (_topElement w)), (is_body (_bottomElement w)); simpl;
    repeat split;
    try (rewrite get_insert_ne by discriminate);
    try (rewrite get_insert_eq);
    try (rewrite get_insert_ne by discriminate);
    try reflexivity;
    intros k Hk1 Hk2;
    rewrite !get_insert_ne by congruence; reflexivity.
Qed.

Lemma calculateOriginalSizes_original (m : Measure) (w : Sticky) :
  get (_options (_calculateOriginalSizes m w)) "originalOffsetTop"
  = (if is_undefined (get (_options w) "originalOffsetTop")
     then Num (parseInt (get (_options w) "offsetTop"))
     else get (_options w) "originalOffsetTop")
  /\ (is_undefined (get (_options w) "originalOffsetTop") = true ->
      get (_options (_calculateOriginalSizes m w)) "originalOffsetBottom"
      = Num (parseInt (get (_options w) "offsetBottom"))).
Proof.
  unfold _calculateOriginalSizes. simpl.
  set (o1 := if is_undefined (get (_options w) "originalOffsetTop") then _ else _).
  set (o2 := <["originalWidth" := _]> (<["originalLeft" := _]> (<["originalTop" := _]> o1))).
  assert (E : forall k, k <> "originalTop" -> k <> "originalLeft" ->
                k <> "originalWidth" ->
                get (<["originalWidth" := Num (parseInt (Str (computedWidth m)))]>
                       match get o2 "originalWidth" with
                       | Num n => if isNaN n then <["originalWidth" := Num (Int 0)]> o2 else o2
                       | _ => o2
                       end) k = get o1 k).
  { intros k K1 K2 K3. rewrite get_insert_ne by congruence.
    assert (E2 : get o2 k = get o1 k)
      by (unfold o2; rewrite !get_insert_ne by congruence; reflexivity).
    destruct (get o2 "originalWidth") as [| | |[|z]| |]; simpl;
      try exact E2.
    rewrite get_insert_ne by congruence. exact E2. }
  rewrite !E by discriminate. unfold o1.
  destruct (is_undefined (get (_options w) "originalOffsetTop")) eqn:U.
  - split.
    + rewrite get_insert_ne by discriminate. apply get_insert_eq.
    + intros _. rewrite get_insert_eq.
      rewrite get_insert_ne by discriminate. reflexivity.
  - split; [reflexivity | discriminate].
Qed.
End Offsets.

Section Construction.
Import JS InkSticky Spec Examples.

Lemma extendObj_lookup (d a b : gmap string value) (k : string) :
  extendObj d [a; b] !! k
  = match b !! k with
    | Some v => Some v
    | None => match a !! k with
              | Some v => Some v
              | None => d !! k
              end
    end.
Proof.
  unfold extendObj. simpl. rewrite !lookup_union.
  destruct (b !! k), (a !! k), (d !! k); reflexivity.
Qed.

Lemma extendObj_copy (o : gmap string value) : extendObj ∅ [o] = o.
Proof. unfold extendObj. simpl. apply map_eq. intros k.
  rewrite lookup_union, lookup_empty. destruct (o !! k); reflexivity. Qed.

Lemma new_inv (sel : selector) (options : option (gmap string value))
    (p : Page) (m : Measure) (w : Sticky) :
  new sel options p m = Return w ->
  exists (e : Element) (t b : Boundary),
    root_of sel = Some e
    /\ w = _init m
             (assembled e (extendObj defaults [default ∅ options; Element_data e])
                t b (computedWidth m)).
Proof.
  unfold new. intros H.
  destruct sel as [[|e found]|e|]; try discriminate;
    destruct (boundary p _ "Top Element") as [t|]; try discriminate;
    destruct (boundary p _ "Bottom Element") as [b|]; try discriminate;
    exists e, t, b; (split; [reflexivity | congruence]).
Qed.

Lemma init_ORIGINAL (m : Measure) (w : Sticky) :
  ORIGINAL (_init m w) = ORIGINAL w.
Proof.
  unfold _init.
  destruct (calculateOffsets_frame m (_calculateOriginalSizes m w)) as (H & _).
  rewrite H. reflexivity.
Qed.

Lemma merged_get (options : gmap string value) (e : Element) (k : string) :
  get (extendObj defaults [options; Element_data e]) k = data_first options e k.
Proof.
  unfold get, data_first. rewrite extendObj_lookup.
  unfold Element_data. rewrite lookup_fmap.
  destruct (dataset e !! k); simpl; [reflexivity |].
  destruct (options !! k); reflexivity.
Qed.

(** C9 as the specification words it does not hold: a data attribute
    replaces the option given to the constructor. *)
Lemma C9_counterexample :
  ~ (forall (sel : selector) (options : gmap string value) (p : Page)
            (m : Measure) (w : Sticky) (e : Element) (k : string),
       new sel (Some options) p m = Return w ->
       root_of sel = Some e ->
       get (ORIGINAL w) k = explicit_first options e k).
Proof.
  intros H.
  specialize (H (Node menu_data) options20 page (measure None)
                _ menu_data "offsetTop" eq_refl eq_refl).
  vm_compute in H. discriminate H.
Qed.

(** C9, amended. The options the widget works with are resolved per name
    as: the data attribute of the target when it has one, else the option
    given to the constructor, else the built-in default. An option given
    to the constructor therefore wins over the default only. *)
Theorem C9_data_attribute_wins (sel : selector)
    (options : option (gmap string value)) (p : Page) (m : Measure)
    (w : Sticky) (e : Element) (k : string) :
  new sel options p m = Return w ->
  root_of sel = Some e ->
  get (ORIGINAL w) k = data_first (default ∅ options) e k.
Proof.
  intros Hnew Hroot.
  destruct (new_inv _ _ _ _ _ Hnew) as (e' & t & b & Hr & ->).
  assert (e' = e) by congruence. subst e'.
  rewrite init_ORIGINAL. unfold assembled. cbn [ORIGINAL]. rewrite extendObj_copy.
  apply merged_get.
Qed.

Lemma C9_data_attribute_wins_witness :
  new (Node menu_data) (Some options20) page (measure None)
  = Return constructed_over_data
  /\ root_of (Node menu_data) = Some menu_data
  /\ get (ORIGINAL constructed_over_data) "offsetTop" = Str "30"
  /\ get (ORIGINAL constructed_over_data) "topElement" = Str "#hdr"
  /\ get (ORIGINAL constructed_over_data) "offsetBottom" = Num (Int 0).
Proof.
  assert (Hn : new (Node menu_data) (Some options20) page (measure None)
               = Return constructed_over_data) by (vm_compute; reflexivity).
  assert (Hr : root_of (Node menu_data) = Some menu_data) by reflexivity.
  pose proof (C9_data_attribute_wins _ _ _ _ _ _ "offsetTop" Hn Hr) as H1.
  pose proof (C9_data_attribute_wins _ _ _ _ _ _ "topElement" Hn Hr) as H2.
  pose proof (C9_data_attribute_wins _ _ _ _ _ _ "offsetBottom" Hn Hr) as H3.
  exact (conj Hn (conj Hr (conj H1 (conj H2 H3)))).
Defined.

(** *** Offsets across resizes *)

Lemma resized_original (m : Measure) (w : Sticky) :
  is_undefined (get (_options w) "originalOffsetTop") = false ->
  get (_options (resized m w)) "originalOffsetTop"
  = get (_options w) "originalOffsetTop".
Proof.
  intros H. unfold resized.
  destruct (calculateOffsets_options m
              (_calculateOriginalSizes m
                 (with_root (removeAttribute_style (_rootElement w)) w)))
    as (_ & _ & Hk).
  rewrite Hk by discriminate.
  destruct (calculateOriginalSizes_original m
              (with_root (removeAttribute_style (_rootElement w)) w)) as (Ho & _).
  rewrite Ho. simpl. rewrite H. reflexivity.
Qed.

(** Once set, the original offset survives every run of resizes. *)
Lemma resizes_original (ms : list Measure) (w : Sticky) :
  is_undefined (get (_options w) "originalOffsetTop") = false ->
  get (_options (resizes ms w)) "originalOffsetTop"
  = get (_options w) "originalOffsetTop".
Proof.
  revert w. induction ms as [|m ms IH]; intros w H; [reflexivity |].
  unfold resizes in *. simpl.
  rewrite IH; rewrite resized_original by exact H; [reflexivity | exact H].
Qed.






End Construction.

Section OffsetsRead.
Import JS InkSticky Spec Examples.

(** C2 as the specification words it does not hold: after the
    recomputation the handler still works with the configured offset, not
    with the sum the recomputation stored. *)
Lemma C2_counterexample :
  ~ (forall (sel : selector) (options : option (gmap string value))
            (p : Page) (m : Measure) (w : Sticky),
       new sel options p m = Return w ->
       is_body (_topElement w) = false ->
       scroll_offsetTop w
       = add (add (Int (topElementHeight m)) (Int (topElementTop m)))
           (parseInt (get (_options w) "originalOffsetTop"))).
Proof.
  intros H.
  assert (Hn : new (Node menu) (Some options20) page (measure (Some far))
               = Return constructed) by (vm_compute; reflexivity).
  specialize (H _ _ _ _ _ Hn eq_refl).
  vm_compute in H. discriminate H.
Qed.

(** On the page of the example the two readings decide differently: with
    the configured offset 20 the tick selects TOP, with the stored sum 80
    it would select SCREEN. *)
Example cache_would_decide_otherwise :
  get (_options constructed) "offsetTop" = Num (Int 80)
  /\ scroll_offsetTop constructed = Int 20
  /\ tick_mode far constructed = "top"
  /\ fst (place far (Int 80) (Int 0) (_rootElement constructed)) = "screen".
Proof. vm_compute. repeat split. Qed.

(** C2, amended. The recomputation rebuilds the cache as described: for
    a top boundary that is not the body, _options.offsetTop becomes
    boundaryHeight + boundaryTopPosition + originalOffsetTop, and for a
    bottom boundary that is not the body _options.offsetBottom becomes
    boundaryHeight + originalOffsetBottom. The scroll handler does not
    read that cache: the offsets of a tick are the configured values kept
    in ORIGINAL, which neither the recomputation nor a resize changes,
    and a tick commutes with any change of _options. *)
Theorem C2_cache_rebuilt_scroll_reads_ORIGINAL (m : Measure) (w : Sticky)
    (l : Layout) (o : gmap string value) :
  (is_body (_topElement w) = false ->
   get (_options (_calculateOffsets m w)) "offsetTop"
   = Num (add (add (Int (topElementHeight m)) (Int (topElementTop m)))
            (parseInt (get (_options w) "originalOffsetTop"))))
  /\ (is_body (_bottomElement w) = false ->
      get (_options (_calculateOffsets m w)) "offsetBottom"
      = Num (add (Int (bottomElementHeight m))
               (parseInt (get (_options w) "originalOffsetBottom"))))
  /\ scroll_offsetTop (_calculateOffsets m w)
     = configured (get (ORIGINAL w) "offsetTop")
  /\ scroll_offsetBottom (_calculateOffsets m w)
     = configured (get (ORIGINAL w) "offsetBottom")
  /\ scroll_offsetTop (_init m w) = configured (get (ORIGINAL w) "offsetTop")
  /\ scroll_offsetTop (resized m w) = configured (get (ORIGINAL w) "offsetTop")
  /\ scroll_offsetBottom (resized m w)
     = configured (get (ORIGINAL w) "offsetBottom")
  /\ _onScroll l (with_options o w) = with_options o (_onScroll l w).
Proof.
  destruct (calculateOffsets_options m w) as (Ht & Hb & _).
  destruct (calculateOffsets_frame m w) as (Ho & _).
  destruct (resized_frame m w) as (Hr & _).
  unfold scroll_offsetTop, scroll_offsetBottom.
  rewrite init_ORIGINAL, Ho, Hr.
  repeat split.
  - intros E. rewrite Ht, E. reflexivity.
  - intros E. rewrite Hb, E. reflexivity.
  - apply onScroll_with_options.
Qed.

Lemma C2_cache_rebuilt_scroll_reads_ORIGINAL_witness :
  is_body (_topElement constructed) = false
  /\ get (_options (_calculateOffsets (measure None) constructed)) "offsetTop"
     = Num (Int 80)
  /\ scroll_offsetTop (_calculateOffsets (measure None) constructed) = Int 20.
Proof.
  assert (Hb : is_body (_topElement constructed) = false)
    by (vm_compute; reflexivity).
  destruct (C2_cache_rebuilt_scroll_reads_ORIGINAL (measure None) constructed
              far ∅) as (H1 & _ & H3 & _).
  split; [exact Hb |]. split.
  - rewrite (H1 Hb). vm_compute. reflexivity.
  - rewrite H3. vm_compute. reflexivity.
Defined.

(** C6 as the specification words it does not hold: a text that does
    not parse is read as NaN, not as 0. *)
Lemma C6_counterexample :
  ~ (forall w : Sticky,
       isNaN (parseInt (get (ORIGINAL w) "offsetTop")) = true ->
       scroll_offsetTop w = Int 0).
Proof.
  intros H. specialize (H (widget menu options_abc) eq_refl).
  vm_compute in H. discriminate H.
Qed.

Lemma tick_mode_NaN (l : Layout) (w : Sticky) :
  scroll_offsetTop w = NaN ->
  tick_mode l w = if cond_bottom l then "bottom" else EmptyString.
Proof.
  intros H. rewrite tick_mode_order, H. reflexivity.
Qed.

(** C6, amended. The scroll handler reads a configured offset that is
    falsy (absent, the empty string, 0, NaN, null, false) as 0, and any
    other value through parseInt without coercion: a text that does not
    parse gives NaN. With a NaN top offset neither TOP nor SCREEN can hold,
    so a tick selects BOTTOM or nothing. The original offsets are stored as
    parseInt gives them. Every step is a total function: nothing throws. *)
Theorem C6_zero_for_falsy_NaN_otherwise (w : Sticky) :
  (truthy (get (ORIGINAL w) "offsetTop") = false -> scroll_offsetTop w = Int 0)
  /\ (truthy (get (ORIGINAL w) "offsetBottom") = false ->
      scroll_offsetBottom w = Int 0)
  /\ (truthy (get (ORIGINAL w) "offsetTop") = true ->
      scroll_offsetTop w = parseInt (get (ORIGINAL w) "offsetTop"))
  /\ (truthy (get (ORIGINAL w) "offsetBottom") = true ->
      scroll_offsetBottom w = parseInt (get (ORIGINAL w) "offsetBottom"))
  /\ (forall l : Layout,
        scroll_offsetTop w = NaN ->
        tick_mode l w = if cond_bottom l then "bottom" else EmptyString)
  /\ (forall m : Measure,
        is_undefined (get (_options w) "originalOffsetTop") = true ->
        get (_options (_calculateOriginalSizes m w)) "originalOffsetTop"
        = Num (parseInt (get (_options w) "offsetTop"))
        /\ get (_options (_calculateOriginalSizes m w)) "originalOffsetBottom"
           = Num (parseInt (get (_options w) "offsetBottom"))).
Proof.
  unfold scroll_offsetTop, scroll_offsetBottom, configured.
  repeat split; try (intros H; rewrite H; reflexivity).
  - intros l H. apply tick_mode_NaN. exact H.
  - destruct (calculateOriginalSizes_original m w) as (Ho & _).
    rewrite Ho, H. reflexivity.
  - destruct (calculateOriginalSizes_original m w) as (_ & Ho).
    apply Ho. exact H.
Qed.

Lemma C6_zero_for_falsy_NaN_otherwise_witness :
  truthy (get (ORIGINAL (widget menu options_abc)) "offsetTop") = true
  /\ truthy (get (ORIGINAL (widget menu options_abc)) "offsetBottom") = false
  /\ scroll_offsetTop (widget menu options_abc) = NaN
  /\ scroll_offsetBottom (widget menu options_abc) = Int 0
  /\ tick_mode far (widget menu options_abc) = EmptyString.
Proof.
  assert (Ht : truthy (get (ORIGINAL (widget menu options_abc)) "offsetTop") = true)
    by (vm_compute; reflexivity).
  assert (Hb : truthy (get (ORIGINAL (widget menu options_abc)) "offsetBottom")
               = false) by (vm_compute; reflexivity).
  destruct (C6_zero_for_falsy_NaN_otherwise (widget menu options_abc))
    as (_ & H2 & H3 & _ & H5 & _).
  assert (Hn : scroll_offsetTop (widget menu options_abc) = NaN)
    by (rewrite (H3 Ht); vm_compute; reflexivity).
  split; [exact Ht |]. split; [exact Hb |]. split; [exact Hn |].
  split; [exact (H2 Hb) |].
  rewrite (H5 far Hn). vm_compute. reflexivity.
Defined.
End OffsetsRead.

(** ** Facts about the sniffer *)

Section Sniffer.
Import JS RegExp InkBrowser Spec Examples.

Lemma literal_prefix (p s : string) :
  match literal same_char p s with Some _ => true | None => false end
  = String.prefix p s.
Proof.
  revert s. induction p as [|a p IH]; intros s; [destruct s; reflexivity |].
  destruct s as [|b s]; [reflexivity |]. simpl.
  unfold same_char. destruct (Ascii.eqb_spec a b) as [->|Hne].
  - rewrite IH. destruct (ascii_dec b b); [reflexivity | contradiction].
  - destruct (ascii_dec a b); [contradiction | reflexivity].
Qed.

Lemma literal_app (eq : ascii -> ascii -> bool) (p q s : string) :
  literal eq (p +:+ q) s
  = match literal eq p s with
    | Some s' => literal eq q s'
    | None => None
    end.
Proof.
  revert s. induction p as [|a p IH]; intros s; [reflexivity |].
  destruct s as [|b s]; [reflexivity |]. simpl.
  destruct (eq a b); [apply IH | reflexivity].
Qed.

Lemma test_some_suffix (r : regex) (s : string) :
  test r s = some_suffix (matches_here r) s.
Proof.
  unfold test, exec. generalize EmptyString as pre. 
  induction s as [|a s IH]; intros pre; simpl; unfold matches_here.
  - destruct (match_here r EmptyString) as [[s' c]|]; reflexivity.
  - destruct (match_here r (String a s)) as [[s' c]|]; [reflexivity |].
    simpl. apply IH.
Qed.

Lemma some_suffix_ext (f g : string -> bool) (s : string) :
  (forall s', f s' = g s') -> some_suffix f s = some_suffix g s.
Proof.
  intros H. induction s as [|a s IH]; simpl; rewrite H; [| rewrite IH];
    reflexivity.
Qed.

Lemma some_suffix_orb (f g : string -> bool) (s : string) :
  some_suffix (fun s' => f s' || g s') s = some_suffix f s || some_suffix g s.
Proof.
  induction s as [|a s IH]; simpl.
  - destruct (f EmptyString), (g EmptyString); reflexivity.
  - rewrite IH.
    destruct (f (String a s)), (g (String a s)), (some_suffix f s),
      (some_suffix g s); reflexivity.
Qed.

Lemma test_Lit (p s : string) : test (Lit p) s = contains p s.
Proof.
  rewrite test_some_suffix. apply some_suffix_ext. intros s'.
  unfold matches_here, match_here. simpl.
  rewrite <- literal_prefix. destruct (literal same_char p s'); reflexivity.
Qed.

Lemma test_chrome_or_crios (s : string) :
  test re_chrome_or_crios s = contains "chrome/" s || contains "crios/" s.
Proof.
  rewrite test_some_suffix. unfold contains.
  rewrite <- some_suffix_orb. apply some_suffix_ext. intros s'.
  rewrite <- !literal_prefix.
  change "chrome/"%string with ("chrome" +:+ "/")%string.
  change "crios/"%string with ("crios" +:+ "/")%string.
  rewrite !literal_app.
  unfold matches_here, match_here, re_chrome_or_crios, any_of.
  cbn [fold_left run].
  destruct (literal same_char "chrome" s') as [s1|];
    [destruct (literal same_char "/" s1) |];
    destruct (literal same_char "crios" s') as [s2|];
    try destruct (literal same_char "/" s2); reflexivity.
Qed.

(** On a lower-cased text the [/i] flag changes nothing for the letters of
    the two Explorer patterns. *)
Lemma same_char_i_lower (c : ascii) :
  forallb (fun a => Bool.eqb (same_char_i a (lower_char c))
                      (same_char a (lower_char c)))
    (list_ascii_of_string "msietrdn") = true.
Proof. destruct c as [[] [] [] [] [] [] [] []]; vm_compute; reflexivity. Qed.

Lemma literal_i_lower (p s : string) :
  Forall (fun a => In a (list_ascii_of_string "msietrdn"))
    (list_ascii_of_string p) ->
  literal same_char_i p (toLowerCase s) = literal same_char p (toLowerCase s).
Proof.
  revert s. induction p as [|a p IH]; intros s Hp; [reflexivity |].
  inversion Hp as [|? ? Ha Hp']; subst.
  destruct s as [|c s]; [reflexivity |]. simpl.
  pose proof (same_char_i_lower c) as Hc.
  rewrite forallb_forall in Hc. specialize (Hc a Ha).
  apply Bool.eqb_prop in Hc. rewrite Hc.
  destruct (same_char a (lower_char c)); [apply IH; exact Hp' | reflexivity].
Qed.

Lemma some_suffix_lower (f g : string -> bool) (s : string) :
  (forall s', f (toLowerCase s') = g (toLowerCase s')) ->
  some_suffix f (toLowerCase s) = some_suffix g (toLowerCase s).
Proof.
  intros H. induction s as [|a s IH].
  - pose proof (H EmptyString) as H0. simpl in *. rewrite H0. reflexivity.
  - change (toLowerCase (String a s))
      with (String (lower_char a) (toLowerCase s)).
    cbn [some_suffix]. rewrite IH.
    change (String (lower_char a) (toLowerCase s))
      with (toLowerCase (String a s)).
    rewrite H. reflexivity.
Qed.

Lemma test_msie_or_trident (ua : string) :
  test re_msie_or_trident (toLowerCase ua)
  = mentions "msie" ua || mentions "trident" ua.
Proof.
  rewrite test_some_suffix. unfold mentions, contains.
  rewrite <- some_suffix_orb. apply some_suffix_lower. intros s'.
  rewrite <- !literal_prefix.
  unfold matches_here, match_here, re_msie_or_trident. cbn [run].
  rewrite (literal_i_lower "msie"), (literal_i_lower "trident")
    by (cbv [list_ascii_of_string];
        repeat (constructor; [simpl; tauto |]); constructor).
  destruct (literal same_char "msie" (toLowerCase s'));
    destruct (literal same_char "trident" (toLowerCase s')); reflexivity.
Qed.

Lemma count_true_flags_of (f : family) : (count_true (flags_of f) <= 1)%nat.
Proof. destruct f; vm_compute; lia. Qed.

(** What one run of the sniffer does to the family flags: it turns on the
    flag of the family the precedence selects and leaves the others. *)
Lemma sniff_flags (ua : string) (this : Browser) :
  flags (_sniffUserAgent ua this)
  = zip_with orb (flags this) (flags_of (family_by_precedence ua)).
Proof.
  unfold _sniffUserAgent, family_by_precedence.
  unfold re_applewebkit, re_opera, re_konqueror, re_gecko.
  rewrite !test_Lit, test_chrome_or_crios, test_msie_or_trident.
  fold (mentions "applewebkit/" ua) (mentions "chrome/" ua)
    (mentions "crios/" ua) (mentions "opera" ua)
    (mentions "konqueror" ua) (mentions "gecko" ua).
  destruct this as [ie ge op sa ko ch mo ve us cs dm].
  destruct (mentions "applewebkit/" ua).
  { destruct (mentions "chrome/" ua || mentions "crios/" ua).
    - cbn. rewrite !orb_false_r, orb_true_r. reflexivity.
    - destruct (match_group rVersion 1 _); cbn;
        rewrite !orb_false_r, orb_true_r; reflexivity. }
  destruct (mentions "opera" ua);
    [cbn; rewrite !orb_false_r, orb_true_r; reflexivity |].
  destruct (mentions "konqueror" ua);
    [cbn; rewrite !orb_false_r, orb_true_r; reflexivity |].
  destruct (mentions "msie" ua || mentions "trident" ua).
  { destruct (match_group re_rv_ie 1 _); cbn;
      rewrite !orb_false_r, orb_true_r; reflexivity. }
  destruct (mentions "gecko" ua).
  { destruct (match_group re 1 _); [| destruct (test reVersion _)]; cbn;
      rewrite !orb_false_r, orb_true_r; reflexivity. }
  cbn. rewrite !orb_false_r. reflexivity.
Qed.

(** C7. For every user-agent string the sniffer, run on the object the
    module starts from, turns on the flag of exactly the family the
    precedence WebKit, Opera, Konqueror, IE/Trident, Gecko selects (Chrome
    or Safari inside the WebKit branch): at most one family flag is true,
    and none when no pattern matches. On any object a run sets that one
    flag and changes no other. *)
Theorem C7_one_family_flag_by_precedence (ua : string) (this : Browser) :
  flags (detect ua) = flags_of (family_by_precedence ua)
  /\ (count_true (flags (detect ua)) <= 1)%nat
  /\ (family_by_precedence ua = Unknown ->
      flags (detect ua) = [false; false; false; false; false; false])
  /\ flags (_sniffUserAgent ua this)
     = zip_with orb (flags this) (flags_of (family_by_precedence ua)).
Proof.
  assert (H : flags (detect ua) = flags_of (family_by_precedence ua)).
  { unfold detect. rewrite sniff_flags.
    destruct (family_by_precedence ua); reflexivity. }
  split; [exact H |]. split; [rewrite H; apply count_true_flags_of |].
  split; [intros E; rewrite H, E; reflexivity | apply sniff_flags].
Qed.

Lemma C7_one_family_flag_by_precedence_witness :
  family_by_precedence "Lynx/2.8.8dev.3 libwww-FM/2.14" = Unknown
  /\ flags (detect "Lynx/2.8.8dev.3 libwww-FM/2.14")
     = [false; false; false; false; false; false]
  /\ flags (detect ua_firefox) = [false; true; false; false; false; false].
Proof.
  assert (E : family_by_precedence "Lynx/2.8.8dev.3 libwww-FM/2.14" = Unknown)
    by (vm_compute; reflexivity).
  destruct (C7_one_family_flag_by_precedence "Lynx/2.8.8dev.3 libwww-FM/2.14"
              initial) as (_ & _ & H & _).
  destruct (C7_one_family_flag_by_precedence ua_firefox initial) as (F & _).
  split; [exact E |]. split; [exact (H E) |].
  rewrite F. vm_compute. reflexivity.
Defined.

(** Every user agent that mentions applewebkit/ and chrome/ or crios/ is
    classified as Chrome, never as Safari. *)
Lemma chrome_classified (ua : string) :
  mentions "applewebkit/" ua = true ->
  mentions "chrome/" ua = true \/ mentions "crios/" ua = true ->
  CHROME (detect ua) = true
  /\ SAFARI (detect ua) = false
  /\ model (detect ua) = Some "chrome"
  /\ version (detect ua)
     = Some (replace_by_group re_chrome_version 2 (toLowerCase ua)).
Proof.
  intros Hw Hc. unfold detect, _sniffUserAgent.
  unfold re_applewebkit. rewrite test_Lit, test_chrome_or_crios.
  fold (mentions "applewebkit/" ua) (mentions "chrome/" ua)
    (mentions "crios/" ua).
  rewrite Hw.
  assert (E : mentions "chrome/" ua || mentions "crios/" ua = true)
    by (apply orb_true_iff; exact Hc).
  rewrite E. repeat split.
Qed.

(** C8, at a Chrome-for-iOS user agent. The agent mentions applewebkit/
    and crios/ and is classified as Chrome, but the version pattern looks
    for chrome/ only: nothing is replaced and the version is the whole
    lower-cased user agent instead of the token 30.0.1599.12 that follows
    crios/. For a desktop Chrome agent the version is the token after
    chrome/. *)
Theorem C8_crios_version_is_whole_agent :
  mentions "applewebkit/" ua_crios = true
  /\ mentions "crios/" ua_crios = true
  /\ CHROME (detect ua_crios) = true
  /\ SAFARI (detect ua_crios) = false
  /\ model (detect ua_crios) = Some "chrome"
  /\ version (detect ua_crios) = Some (toLowerCase ua_crios)
  /\ version (detect ua_crios) <> Some "30.0.1599.12"
  /\ version (detect ua_chrome) = Some "30.0.1599.101".
Proof. vm_compute. repeat split; discriminate. Qed.
End Sniffer.

(** ** The version pattern of Chrome *)

Section ChromeVersion.
Import JS RegExp InkBrowser Spec Examples.

Lemma star_app_all {R : Type} (p : ascii -> bool) (a b : string)
    (k : string -> option R) (x : R) :
  all_chars p a = true ->
  star p b k = Some x ->
  star p (a +:+ b) k = Some x.
Proof.
  induction a as [|c a IH]; intros Ha Hb; [exact Hb |].
  simpl in Ha. apply andb_true_iff in Ha as [Hc Ha].
  simpl. rewrite Hc, (IH Ha Hb). reflexivity.
Qed.

(** When the continuation fails after every further character, the
    repetition ends up taking none. *)
Lemma star_gives_back {R : Type} (p : ascii -> bool) (s : string)
    (k : string -> option R) :
  match s with
  | String _ s' => some_suffix (fun u => bool_decide (k u <> None)) s' = false
  | EmptyString => True
  end ->
  star p s k = k s.
Proof.
  destruct s as [|c s]; [reflexivity |]. intros H. simpl.
  assert (E : star p s k = None).
  { clear c. induction s as [|c s IH]; simpl in *.
    - apply orb_false_iff in H as [H _].
      apply bool_decide_eq_false in H.
      destruct (k EmptyString); [exfalso; apply H; discriminate | reflexivity].
    - apply orb_false_iff in H as [H1 H2].
      apply bool_decide_eq_false in H1.
      rewrite (IH H2).
      destruct (k (String c s)); [exfalso; apply H1; discriminate |].
      destruct (p c); reflexivity. }
  rewrite E. destruct (p c); reflexivity.
Qed.

Lemma star_all {R : Type} (p : ascii -> bool) (s : string)
    (k : string -> option R) :
  all_chars p s = true ->
  (forall u, k u <> None) ->
  star p s k = k EmptyString.
Proof.
  intros Hs Hk. induction s as [|c s IH]; [reflexivity |].
  simpl in Hs. apply andb_true_iff in Hs as [Hc Hs].
  simpl. rewrite Hc, (IH Hs).
  destruct (k EmptyString) eqn:E; [reflexivity | destruct (Hk _ E)].
Qed.

Lemma length_append (a b : string) :
  String.length (a +:+ b) = (String.length a + String.length b)%nat.
Proof. induction a as [|c a IH]; simpl; [| rewrite IH]; reflexivity. Qed.

Lemma substring_prefix (a b : string) :
  substring 0 (String.length a) (a +:+ b) = a.
Proof.
  induction a as [|c a IH]; simpl; [destruct b; reflexivity |].
  rewrite IH. reflexivity.
Qed.

Lemma consumed_app (a b : string) : consumed (a +:+ b) b = a.
Proof.
  unfold consumed. rewrite length_append.
  replace (String.length a + String.length b - String.length b)%nat
    with (String.length a) by lia.
  apply substring_prefix.
Qed.

Lemma append_empty (a : string) : a +:+ EmptyString = a.
Proof.
  induction a as [|c a IH]; [reflexivity |].
  change (String c (a +:+ EmptyString) = String c a). rewrite IH. reflexivity.
Qed.

Lemma consumed_all (a : string) : consumed a EmptyString = a.
Proof.
  pose proof (consumed_app a EmptyString) as H.
  rewrite append_empty in H. exact H.
Qed.

Lemma literal_self (p x : string) : literal same_char p (p +:+ x) = Some x.
Proof.
  induction p as [|c p IH]; [reflexivity |].
  change (literal same_char (String c p) (String c (p +:+ x)) = Some x).
  cbn [literal]. unfold same_char at 1. rewrite Ascii.eqb_refl. exact IH.
Qed.

Lemma some_suffix_mono (f g : string -> bool) (s : string) :
  (forall u, f u = true -> g u = true) ->
  some_suffix g s = false -> some_suffix f s = false.
Proof.
  intros H. induction s as [|c s IH]; simpl; intros Hg;
    apply orb_false_iff in Hg as [H1 H2]; apply orb_false_iff; split;
    try (apply IH; exact H2); try reflexivity;
    (destruct (f _) eqn:E; [apply H in E; congruence | reflexivity]).
Qed.

(** The version pattern on one line of text whose last anchor is followed by
    the token [tok]: the match covers the line and group 2 is the token. *)
Lemma chrome_version_match (pre tok rest : string) :
  all_chars dot pre = true ->
  all_chars dot rest = true ->
  all_chars non_space tok = true ->
  tok <> EmptyString ->
  match rest with String c _ => non_space c = false | EmptyString => True end ->
  some_suffix version_marker ("hrome/" +:+ tok +:+ rest) = false ->
  match_here re_chrome_version (pre +:+ "chrome/" +:+ tok +:+ rest)
  = Some (EmptyString,
          <[3%nat := rest]> (<[2%nat := tok]> (<[1%nat := pre]> ∅))).
Proof.
  intros Hpre Hrest Htok Hne Hend Hlast.
  destruct tok as [|t0 tok']; [congruence |].
  simpl in Htok. apply andb_true_iff in Htok as [Ht0 Htok'].
  unfold match_here, re_chrome_version, around. cbn [run].
  set (s := pre +:+ "chrome/" +:+ String t0 tok' +:+ rest).
  set (b := ("chrome/" +:+ String t0 tok' +:+ rest)%string).
  set (kk := fun s' : string => _).
  apply (star_app_all dot pre b kk _ Hpre).
  rewrite star_gives_back.
  - unfold kk.
    assert (Hs : consumed s b = pre) by apply consumed_app.
    rewrite Hs. unfold b. rewrite literal_self.
    change (String t0 tok' +:+ rest) with (String t0 (tok' +:+ rest)).
    cbv beta iota. rewrite Ht0.
    set (k2 := fun s'' : string => _).
    assert (Hk2 : k2 rest
                  = Some (EmptyString,
                          <[3%nat := rest]>
                            (<[2%nat := String t0 tok']> (<[1%nat := pre]> ∅)))).
    { unfold k2.
      change (String t0 (tok' +:+ rest)) with (String t0 tok' +:+ rest).
      rewrite consumed_app.
      rewrite star_all; [rewrite consumed_all; reflexivity | exact Hrest |].
      intros u. discriminate. }
    apply (star_app_all non_space tok' rest k2 _ Htok').
    rewrite <- Hk2.
    destruct rest as [|c r]; [reflexivity |].
    simpl. rewrite Hend. reflexivity.
  - unfold b.
    change ("chrome/" +:+ String t0 tok' +:+ rest)
      with (String "c" ("hrome/" +:+ String t0 tok' +:+ rest)).
    revert Hlast. apply some_suffix_mono. intros u Hu.
    apply bool_decide_eq_true in Hu. unfold kk in Hu.
    unfold version_marker.
    destruct (literal same_char "chrome/" u) as [[|a v]|]; try congruence.
    destruct (non_space a); [reflexivity | congruence].
Qed.

Lemma token_split (s : string) : s = token s +:+ after_token s.
Proof.
  induction s as [|c s IH]; [reflexivity |]. simpl.
  destruct (is_white_space c); [reflexivity |].
  change (String c s = String c (token s +:+ after_token s)).
  rewrite <- IH. reflexivity.
Qed.

Lemma token_non_space (s : string) : all_chars non_space (token s) = true.
Proof.
  induction s as [|c s IH]; [reflexivity |]. simpl.
  destruct (is_white_space c) eqn:E; [reflexivity |].
  simpl. unfold non_space at 1. rewrite E, IH. reflexivity.
Qed.

Lemma after_token_starts (s : string) :
  match after_token s with
  | String c _ => non_space c = false
  | EmptyString => True
  end.
Proof.
  induction s as [|c s IH]; [exact I |]. simpl.
  destruct (is_white_space c) eqn:E; [| exact IH].
  unfold non_space. rewrite E. reflexivity.
Qed.

Lemma all_chars_app (p : ascii -> bool) (a b : string) :
  all_chars p (a +:+ b) = all_chars p a && all_chars p b.
Proof.
  induction a as [|c a IH]; [reflexivity |].
  change (all_chars p (String c (a +:+ b)) = all_chars p (String c a) && all_chars p b).
  simpl. rewrite IH. apply andb_assoc.
Qed.

Lemma some_suffix_here (f : string -> bool) (s : string) :
  f s = true -> some_suffix f s = true.
Proof. intros H. destruct s; simpl; rewrite H; reflexivity. Qed.

Lemma contains_app (p pre x : string) : contains p (pre +:+ p +:+ x) = true.
Proof.
  unfold contains. induction pre as [|c pre IH].
  - change (EmptyString +:+ p +:+ x) with (p +:+ x).
    apply some_suffix_here.
    rewrite <- literal_prefix, literal_self. reflexivity.
  - change (String c pre +:+ p +:+ x) with (String c (pre +:+ p +:+ x)).
    cbn [some_suffix]. rewrite IH. apply orb_true_r.
Qed.

Lemma exec_from_here (r : regex) (pre s s' : string) (c : gmap nat string) :
  match_here r s = Some (s', c) ->
  exec_from r pre s
  = Some {| before := pre; matched := consumed s s'; after := s'; groups := c |}.
Proof. intros H. destruct s; cbn [exec_from]; rewrite H; reflexivity. Qed.

(** X19. For a one-line agent of the WebKit family whose last chrome/ anchor is
    followed by a token, the version is that token: the text after
    chrome/ up to the next white space. *)
Lemma chrome_version_is_token (ua pre rest : string) :
  mentions "applewebkit/" ua = true ->
  toLowerCase ua = pre +:+ "chrome/" +:+ rest ->
  all_chars dot (toLowerCase ua) = true ->
  token rest <> EmptyString ->
  some_suffix version_marker ("hrome/" +:+ rest) = false ->
  CHROME (detect ua) = true
  /\ SAFARI (detect ua) = false
  /\ model (detect ua) = Some "chrome"
  /\ version (detect ua) = Some (token rest).
Proof.
  intros Hw Hua Hline Htok Hlast.
  assert (Hc : mentions "chrome/" ua = true)
    by (unfold mentions; rewrite Hua; apply contains_app).
  destruct (chrome_classified ua Hw (or_introl Hc)) as (H1 & H2 & H3 & H4).
  repeat (split; [assumption |]).
  rewrite H4, Hua. f_equal.
  rewrite Hua in Hline.
  rewrite !all_chars_app in Hline.
  apply andb_true_iff in Hline as [Hpre Hline].
  apply andb_true_iff in Hline as [_ Hrest].
  rewrite (token_split rest) in Hrest, Hlast |- * at 1.
  rewrite all_chars_app in Hrest. apply andb_true_iff in Hrest as [_ Hrest].
  unfold replace_by_group, exec.
  rewrite (exec_from_here _ _ _ _ _
             (chrome_version_match pre (token rest) (after_token rest)
                Hpre Hrest (token_non_space rest) Htok (after_token_starts rest)
                Hlast)).
  unfold group. cbn [before after groups].
  rewrite lookup_insert_ne by discriminate.
  rewrite lookup_insert_eq. cbn. apply append_empty.
Qed.

Example chrome_desktop_version :
  version (detect ua_chrome) = Some (token "30.0.1599.101 safari/537.36").
Proof.
  apply (chrome_version_is_token ua_chrome
           "mozilla/5.0 (x11; linux x86_64) applewebkit/537.36 (khtml, like gecko) "
           "30.0.1599.101 safari/537.36");
    try (vm_compute; reflexivity).
  vm_compute. discriminate.
Qed.
End ChromeVersion.

(** ** More about the scroll tick *)

Section ScrollMore.
Import JS InkSticky Spec Spec2 Examples Examples2.

(** X1. Outside the guard, when the top boundary's bottom edge is at or above
    the configured top offset and the bottom boundary is not closer than
    the target's height, the tick selects SCREEN: the target is fixed at
    the configured top offset, in px, and both sticking classes are off. *)
Theorem screen_mode_fixes_at_offset (l : Layout) (w : Sticky) (t : Z) :
  narrow l = false ->
  scroll_offsetTop w = Int t ->
  bottom (topRect l) <= t ->
  elementHeight l <= top (bottomRect l) ->
  tick_mode l w = "screen"
  /\ _stickingTo (_onScroll l w) = Some "screen"
  /\ inline "position" (_onScroll l w) = Some "fixed"
  /\ inline "top" (_onScroll l w) = Some (number_to_string (Int t) +:+ "px")
  /\ classes (_rootElement (_onScroll l w))
     = (classes (_rootElement w) ∖ {["ink-sticky-sticking"]})
         ∖ {["ink-sticky-sticking-bottom"]}.
Proof.
  intros Hn Ht Hs Hb.
  assert (H1 : cond_top l (scroll_offsetTop w) = false).
  { unfold cond_top. rewrite Ht. simpl.
    apply andb_false_iff. left. apply Z.ltb_ge. exact Hs. }
  assert (H2 : cond_bottom l = false) by (unfold cond_bottom; apply Z.ltb_ge; lia).
  assert (H3 : cond_screen l (scroll_offsetTop w) = true)
    by (unfold cond_screen; rewrite Ht; simpl; apply Z.leb_le; exact Hs).
  assert (Hp : place l (scroll_offsetTop w) (scroll_offsetBottom w) (_rootElement w)
               = ("screen",
                  set_style_px "top" (Int t)
                    (set_style "position" "fixed" (_rootElement w))))
    by (unfold place; rewrite H1, H2, H3, Ht; reflexivity).
  split; [unfold tick_mode; rewrite Hp; reflexivity |].
  rewrite (onScroll_wide l w Hn), Hp. cbv zeta. cbn [fst snd].
  split; [apply stickingTo_after; discriminate |].
  rewrite !inline_with_root. simpl.
  split; [rewrite lookup_insert_ne by discriminate; apply lookup_insert_eq |].
  split; [apply lookup_insert_eq |].
  destruct (changed "screen" w); reflexivity.
Qed.

Lemma screen_mode_fixes_at_offset_witness :
  narrow scrolled = false
  /\ scroll_offsetTop (widget menu options20) = Int 20
  /\ bottom (topRect scrolled) <= 20
  /\ elementHeight scrolled <= top (bottomRect scrolled)
  /\ inline "top" (_onScroll scrolled (widget menu options20)) = Some "20px".
Proof.
  assert (Hn : narrow scrolled = false) by (vm_compute; reflexivity).
  assert (Ht : scroll_offsetTop (widget menu options20) = Int 20)
    by (vm_compute; reflexivity).
  assert (Hs : bottom (topRect scrolled) <= 20) by (vm_compute; discriminate).
  assert (Hb : elementHeight scrolled <= top (bottomRect scrolled))
    by (vm_compute; discriminate).
  destruct (screen_mode_fixes_at_offset scrolled (widget menu options20) 20
              Hn Ht Hs Hb) as (_ & _ & _ & H & _).
  exact (conj Hn (conj Ht (conj Hs (conj Hb H)))).
Defined.

(** X2. In BOTTOM mode, with an offset that is not negative, the target's top
    is a negative length: the target is pushed above the top edge of the
    viewport by the amount it would overlap the bottom boundary. *)
Theorem bottom_mode_top_is_negative (l : Layout) (w : Sticky) (ob : Z) :
  narrow l = false ->
  top (bottomRect l) < elementHeight l ->
  scroll_offsetBottom w = Int ob ->
  0 <= ob ->
  exists z : Z,
    z < 0
    /\ z = top (bottomRect l) - elementHeight l - ob
    /\ inline "top" (_onScroll l w) = Some (number_to_string (Int z) +:+ "px").
Proof.
  intros Hn Hb Ho Hob.
  exists (top (bottomRect l) - elementHeight l - ob).
  split; [lia |]. split; [reflexivity |].
  destruct (cond_bottom_excludes_top l (scroll_offsetTop w) Hb) as [Ht Hb'].
  rewrite (onScroll_wide l w Hn). unfold place. rewrite Ht, Hb', Ho.
  cbv zeta. cbn [fst snd]. rewrite inline_with_root. simpl.
  apply lookup_insert_eq.
Qed.

Lemma bottom_mode_top_is_negative_witness :
  narrow near = false
  /\ top (bottomRect near) < elementHeight near
  /\ scroll_offsetBottom (widget menu options20) = Int 0
  /\ 0 <= 0
  /\ exists z : Z,
       z < 0 /\ z = top (bottomRect near) - elementHeight near - 0
       /\ inline "top" (_onScroll near (widget menu options20))
          = Some (number_to_string (Int z) +:+ "px").
Proof.
  assert (Hn : narrow near = false) by (vm_compute; reflexivity).
  assert (Hb : top (bottomRect near) < elementHeight near) by (vm_compute; reflexivity).
  assert (Ho : scroll_offsetBottom (widget menu options20) = Int 0)
    by (vm_compute; reflexivity).
  assert (Hz : 0 <= 0) by lia.
  exact (conj Hn (conj Hb (conj Ho (conj Hz
           (bottom_mode_top_is_negative near (widget menu options20) 0
              Hn Hb Ho Hz))))).
Defined.

Lemma toggled_classes (a b : string) (ba bb : bool) (s : gset string) :
  a <> b ->
  let s' := if bb then {[b]} ∪ (if ba then {[a]} ∪ s else s ∖ {[a]})
            else (if ba then {[a]} ∪ s else s ∖ {[a]}) ∖ {[b]} in
  (forall c, c <> a -> c <> b -> (c ∈ s' <-> c ∈ s))
  /\ (a ∈ s' <-> ba = true)
  /\ (b ∈ s' <-> bb = true).
Proof.
  intros Hab. destruct ba, bb; cbv zeta; repeat split; intros;
    try discriminate; try reflexivity;
    repeat (rewrite elem_of_union in * || rewrite elem_of_difference in *
            || rewrite elem_of_singleton in *);
    intuition congruence.
Qed.

(** X3. A tick changes no class but the two sticking classes and no data
    attribute; outside the guard the two classes mirror the mode: the
    target carries ink-sticky-sticking exactly in TOP mode and
    ink-sticky-sticking-bottom exactly in BOTTOM mode, never both. *)
Theorem tick_classes_mirror_mode (l : Layout) (w : Sticky) :
  (forall c : string,
     c <> "ink-sticky-sticking" -> c <> "ink-sticky-sticking-bottom" ->
     has_class c (_onScroll l w) = has_class c w)
  /\ dataset (_rootElement (_onScroll l w)) = dataset (_rootElement w)
  /\ (narrow l = false ->
      has_class "ink-sticky-sticking" (_onScroll l w)
      = String.eqb (tick_mode l w) "top"
      /\ has_class "ink-sticky-sticking-bottom" (_onScroll l w)
         = String.eqb (tick_mode l w) "bottom"
      /\ has_class "ink-sticky-sticking" (_onScroll l w)
         && has_class "ink-sticky-sticking-bottom" (_onScroll l w) = false).
Proof.
  assert (Hplace : forall ot ob e,
            classes (snd (place l ot ob e)) = classes e
            /\ dataset (snd (place l ot ob e)) = dataset e).
  { intros ot ob e. unfold place.
    destruct (cond_top l ot); [split; reflexivity |].
    destruct (cond_bottom l);
      [destruct (sub _ ob); split; reflexivity |].
    destruct (cond_screen l ot); [destruct ot; split; reflexivity |].
    split; reflexivity. }
  destruct (narrow l) eqn:Hn.
  - assert (E : _onScroll l w
                = with_root (removeAttribute_style (_rootElement w)) w).
    { unfold _onScroll. rewrite Hn.
      destruct w as [[st cl ds] o og t b d s c]; destruct st; reflexivity. }
    rewrite E. split; [intros; reflexivity |]. split; [reflexivity | discriminate].
  - rewrite (onScroll_wide l w Hn). cbv zeta.
    fold (tick_mode l w).
    destruct (Hplace (scroll_offsetTop w) (scroll_offsetBottom w) (_rootElement w))
      as (Hc & Hd).
    unfold has_class. cbn [_rootElement with_root classes dataset addRemoveClassName].
    rewrite Hc, Hd.
    destruct (toggled_classes "ink-sticky-sticking" "ink-sticky-sticking-bottom"
                (String.eqb (tick_mode l w) "top")
                (String.eqb (tick_mode l w) "bottom")
                (classes (_rootElement w))) as (Ho & Ha & Hb); [discriminate |].
    split; [intros c H1 H2; apply bool_decide_ext; apply Ho; assumption |].
    split; [reflexivity |]. intros _.
    assert (E1 : bool_decide
                   ("ink-sticky-sticking"
                    ∈ (if String.eqb (tick_mode l w) "bottom"
                       then {["ink-sticky-sticking-bottom"]}
                            ∪ (if String.eqb (tick_mode l w) "top"
                               then {["ink-sticky-sticking"]}
                                    ∪ classes (_rootElement w)
                               else classes (_rootElement w)
                                    ∖ {["ink-sticky-sticking"]})
                       else (if String.eqb (tick_mode l w) "top"
                             then {["ink-sticky-sticking"]}
                                  ∪ classes (_rootElement w)
                             else classes (_rootElement w)
                                  ∖ {["ink-sticky-sticking"]})
                            ∖ {["ink-sticky-sticking-bottom"]}))
                 = String.eqb (tick_mode l w) "top").
    { destruct (String.eqb (tick_mode l w) "top");
        [apply bool_decide_eq_true; apply Ha; reflexivity
        | apply bool_decide_eq_false; rewrite Ha; discriminate]. }
    assert (E2 : bool_decide
                   ("ink-sticky-sticking-bottom"
                    ∈ (if String.eqb (tick_mode l w) "bottom"
                       then {["ink-sticky-sticking-bottom"]}
                            ∪ (if String.eqb (tick_mode l w) "top"
                               then {["ink-sticky-sticking"]}
                                    ∪ classes (_rootElement w)
                               else classes (_rootElement w)
                                    ∖ {["ink-sticky-sticking"]})
                       else (if String.eqb (tick_mode l w) "top"
                             then {["ink-sticky-sticking"]}
                                  ∪ classes (_rootElement w)
                             else classes (_rootElement w)
                                  ∖ {["ink-sticky-sticking"]})
                            ∖ {["ink-sticky-sticking-bottom"]}))
                 = String.eqb (tick_mode l w) "bottom").
    { destruct (String.eqb (tick_mode l w) "bottom");
        [apply bool_decide_eq_true; apply Hb; reflexivity
        | apply bool_decide_eq_false; rewrite Hb; discriminate]. }
    rewrite E1, E2. repeat split.
    destruct (String.eqb_spec (tick_mode l w) "top") as [E|E]; [| reflexivity].
    rewrite E. reflexivity.
Qed.

Lemma tick_classes_mirror_mode_witness :
  narrow near = false
  /\ has_class "ink-sticky-sticking" (_onScroll near (widget menu_styled options20))
     = false
  /\ has_class "ink-sticky-sticking-bottom"
       (_onScroll near (widget menu_styled options20)) = true.
Proof.
  assert (Hn : narrow near = false) by (vm_compute; reflexivity).
  destruct (tick_classes_mirror_mode near (widget menu_styled options20))
    as (_ & _ & H).
  destruct (H Hn) as (H1 & H2 & _).
  split; [exact Hn |]. split.
  - rewrite H1. vm_compute. reflexivity.
  - rewrite H2. vm_compute. reflexivity.
Defined.
End ScrollMore.

Section ModeCoverage.
Import JS InkSticky Spec Spec2 Examples Examples2.

(** X4. With a numeric top offset the three tests leave exactly one gap: a
    tick selects no mode if and only if the bottom boundary's top edge
    equals the target's height while the top boundary's bottom edge is
    below the offset. TOP excludes the other two tests; BOTTOM and SCREEN
    can hold together, and then BOTTOM is selected: the mode is BOTTOM
    exactly when the bottom boundary is closer than the target's height. *)
Theorem no_mode_only_when_touching (l : Layout) (w : Sticky) (t : Z) :
  scroll_offsetTop w = Int t ->
  (tick_mode l w = EmptyString <->
   top (bottomRect l) = elementHeight l /\ t < bottom (topRect l))
  /\ (tick_mode l w = "top"%string <->
      t < bottom (topRect l) /\ elementHeight l < top (bottomRect l))
  /\ (tick_mode l w = "bottom"%string <-> top (bottomRect l) < elementHeight l)
  /\ (tick_mode l w = "screen"%string <->
      bottom (topRect l) <= t /\ elementHeight l <= top (bottomRect l)).
Proof.
  intros Ht. rewrite tick_mode_order, Ht.
  unfold cond_top, cond_bottom, cond_screen, gt, le.
  destruct (Z.ltb_spec t (bottom (topRect l)));
    destruct (Z.ltb_spec (elementHeight l) (top (bottomRect l)));
    destruct (Z.ltb_spec (top (bottomRect l)) (elementHeight l));
    destruct (Z.leb_spec (bottom (topRect l)) t);
    cbn [andb]; repeat split; intros; try discriminate; try lia;
    try reflexivity;
    repeat match goal with H : _ /\ _ |- _ => destruct H end; lia.
Qed.

Lemma no_mode_only_when_touching_witness :
  scroll_offsetTop (widget menu options20) = Int 20
  /\ tick_mode touching (widget menu options20) = EmptyString
  /\ tick_mode (layout 1000 200 100 10 70) (widget menu options20) = "bottom"%string.
Proof.
  assert (H : scroll_offsetTop (widget menu options20) = Int 20)
    by (vm_compute; reflexivity).
  destruct (no_mode_only_when_touching touching (widget menu options20) 20 H)
    as (H1 & _).
  destruct (no_mode_only_when_touching (layout 1000 200 100 10 70)
              (widget menu options20) 20 H) as (_ & _ & H3 & _).
  split; [exact H |]. split.
  - apply H1. vm_compute. split; reflexivity.
  - apply H3. vm_compute. reflexivity.
Defined.
End ModeCoverage.

Section ScrollTwice.
Import JS InkSticky Spec Spec2 Examples Examples2.

Lemma element_ext (e1 e2 : Element) :
  style e1 = style e2 -> classes e1 = classes e2 -> dataset e1 = dataset e2 ->
  e1 = e2.
Proof. destruct e1, e2. simpl. intros -> -> ->. reflexivity. Qed.

Lemma insert_twice (p q v u : string) (m : gmap string string) :
  <[p := v]> (<[q := u]> (<[p := v]> (<[q := u]> m)))
  = <[p := v]> (<[q := u]> m).
Proof.
  apply map_eq. intros k. rewrite !lookup_insert.
  repeat case_decide; reflexivity.
Qed.

Lemma toggled_twice (a b : string) (ba bb : bool) (s : gset string) :
  let f := fun s : gset string =>
             if bb then {[b]} ∪ (if ba then {[a]} ∪ s else s ∖ {[a]})
             else (if ba then {[a]} ∪ s else s ∖ {[a]}) ∖ {[b]} in
  f (f s) = f s.
Proof.
  cbv zeta. apply set_eq. intros x. destruct ba, bb;
    repeat (rewrite elem_of_union in * || rewrite elem_of_difference in *
            || rewrite elem_of_singleton in *);
    intuition congruence.
Qed.

(** What the tests write depends on the inline style only, and writing it a
    second time changes nothing. *)
Lemma place_twice (l : Layout) (ot ob : number) (e e' : Element) :
  style e' = style (snd (place l ot ob e)) ->
  fst (place l ot ob e') = fst (place l ot ob e)
  /\ style (snd (place l ot ob e')) = style (snd (place l ot ob e))
  /\ classes (snd (place l ot ob e')) = classes e'
  /\ dataset (snd (place l ot ob e')) = dataset e'.
Proof.
  unfold place.
  destruct (cond_top l ot).
  { simpl. intros ->. simpl. rewrite insert_twice. repeat split. }
  destruct (cond_bottom l).
  { destruct (sub _ ob); simpl; intros ->; simpl;
      [rewrite insert_insert_eq | rewrite insert_twice]; repeat split. }
  destruct (cond_screen l ot).
  { destruct ot; simpl; intros ->; simpl;
      [rewrite insert_insert_eq | rewrite insert_twice]; repeat split. }
  simpl. intros ->. repeat split.
Qed.

Lemma changed_after (st : string) (w : Sticky) (e : Element) :
  changed st (with_root e (if changed st w then record_mode st w else w)) = false.
Proof.
  unfold changed.
  destruct (String.eqb st EmptyString); [reflexivity |]. simpl.
  destruct (bool_decide_reflect (_stickingTo w = Some st)) as [E|E]; simpl.
  - rewrite bool_decide_eq_true_2 by exact E. reflexivity.
  - rewrite bool_decide_eq_true_2 by reflexivity. reflexivity.
Qed.

(** X5. A second tick on the same layout changes nothing: the style, the
    classes, the stored mode and the console are those the first tick
    left, so an unchanged mode is not logged again. *)
Theorem scroll_tick_idempotent (l : Layout) (w : Sticky) :
  _onScroll l (_onScroll l w) = _onScroll l w.
Proof.
  destruct (narrow l) eqn:Hn.
  - unfold _onScroll. rewrite Hn.
    destruct w as [[st cl ds] o og t b d s c]; destruct st; reflexivity.
  - rewrite (onScroll_wide l (_onScroll l w) Hn).
    rewrite (onScroll_wide l w Hn). cbv zeta.
    set (ot := scroll_offsetTop w). set (ob := scroll_offsetBottom w).
    set (p0 := place l ot ob (_rootElement w)).
    set (e1 := addRemoveClassName "ink-sticky-sticking-bottom" _
                 (addRemoveClassName "ink-sticky-sticking" _ (snd p0))).
    set (w1 := with_root e1 (if changed (fst p0) w then record_mode (fst p0) w else w)).
    assert (Hot : scroll_offsetTop w1 = ot)
      by (unfold w1; destruct (changed (fst p0) w); reflexivity).
    assert (Hob : scroll_offsetBottom w1 = ob)
      by (unfold w1; destruct (changed (fst p0) w); reflexivity).
    assert (Hr : _rootElement w1 = e1) by reflexivity.
    rewrite Hot, Hob, Hr.
    destruct (place_twice l ot ob (_rootElement w) e1 eq_refl)
      as (Hm & Hs & Hc & Hd).
    fold p0 in Hm, Hs. rewrite Hm.
    assert (Hch : changed (fst p0) w1 = false) by apply changed_after.
    rewrite Hch.
    assert (He : addRemoveClassName "ink-sticky-sticking-bottom"
                   (String.eqb (fst p0) "bottom")
                   (addRemoveClassName "ink-sticky-sticking"
                      (String.eqb (fst p0) "top") (snd (place l ot ob e1)))
                 = e1).
    { apply element_ext.
      - simpl. exact Hs.
      - cbn [classes addRemoveClassName]. rewrite Hc. unfold e1.
        cbn [classes addRemoveClassName].
        apply (toggled_twice "ink-sticky-sticking" "ink-sticky-sticking-bottom").
      - simpl. rewrite Hd. reflexivity. }
    rewrite He. unfold w1.
    destruct (changed (fst p0) w); reflexivity.
Qed.
End ScrollTwice.

(** ** More about construction and resizing *)

Section ConstructionMore.
Import JS InkSticky InkStickyTimers Spec Spec2 Examples Examples2.

Lemma constructor_shape (sel : selector)
    (options : option (gmap string value)) (p : Page) (m : Measure) (w : Sticky) :
  new sel options p m = Return w ->
  exists (e : Element) (t b : Boundary),
    root_of sel = Some e
    /\ boundary p (get (extendObj defaults [default ∅ options; Element_data e])
                     "topElement") "Top Element" = Return t
    /\ boundary p (get (extendObj defaults [default ∅ options; Element_data e])
                     "bottomElement") "Bottom Element" = Return b
    /\ w = _init m
             (assembled e (extendObj defaults [default ∅ options; Element_data e])
                t b (computedWidth m)).
Proof.
  unfold new. intros Hw.
  destruct sel as [[|e found]|e|]; try discriminate;
    destruct (boundary p _ "Top Element") as [t|] eqn:Et; try discriminate;
    destruct (boundary p _ "Bottom Element") as [b|] eqn:Eb; try discriminate;
    exists e, t, b; repeat split; try assumption; congruence.
Qed.

(** X6. The constructor fails fast and in this order: a first argument that is
    neither a string nor an object throws the invalid-selector message, a
    string that selects nothing throws the cannot-find message, and what
    [Aux.elOrSelector] throws for the top boundary, then for the bottom
    boundary, is passed on. It returns a widget exactly when the target and
    both boundaries resolve, and a string selecting several elements uses
    the first. *)
Theorem constructor_fails_fast (sel : selector)
    (options : option (gmap string value)) (p : Page) (m : Measure) :
  (root_of sel = None ->
   new sel options p m
   = Throw (match sel with
            | Query _ => "[Sticky] :: Can't find any element with the specified selector"
            | _ => "[Sticky] :: Invalid selector defined"
            end))
  /\ (forall e : Element,
        root_of sel = Some e ->
        let o := extendObj defaults [default ∅ options; Element_data e] in
        new sel options p m
        = match boundary p (get o "topElement") "Top Element" with
          | Throw msg => Throw msg
          | Return t =>
              match boundary p (get o "bottomElement") "Bottom Element" with
              | Throw msg => Throw msg
              | Return b => Return (_init m (assembled e o t b (computedWidth m)))
              end
          end)
  /\ ((exists w, new sel options p m = Return w) <->
      exists e t b,
        root_of sel = Some e
        /\ boundary p (get (extendObj defaults [default ∅ options; Element_data e])
                         "topElement") "Top Element" = Return t
        /\ boundary p (get (extendObj defaults [default ∅ options; Element_data e])
                         "bottomElement") "Bottom Element" = Return b).
Proof.
  split; [| split].
  - destruct sel as [[|e found]|e|]; simpl; intros H;
      try discriminate; reflexivity.
  - intros e H. destruct sel as [[|e' found]|e'|]; simpl in H;
      try discriminate; injection H as ->; reflexivity.
  - split.
    + intros [w Hw]. unfold new in Hw.
      destruct sel as [[|e found]|e|]; try discriminate;
        destruct (boundary p _ "Top Element") as [t|] eqn:Et; try discriminate;
        destruct (boundary p _ "Bottom Element") as [b|] eqn:Eb; try discriminate;
        exists e, t, b; repeat split; assumption.
    + intros (e & t & b & Hr & Ht & Hb).
      destruct sel as [[|e' found]|e'|]; simpl in Hr;
        try discriminate; injection Hr as ->;
        unfold new; rewrite Ht, Hb; eexists; reflexivity.
Qed.

Lemma constructor_fails_fast_witness :
  root_of (Query []) = None
  /\ new (Query []) (Some options20) page (measure None)
     = Throw "[Sticky] :: Can't find any element with the specified selector"
  /\ root_of (Query [menu; menu_data]) = Some menu
  /\ new (Query [menu; menu_data]) (Some options20) plain_page (measure None)
     = Throw "Top Element not found".
Proof.
  assert (H1 : root_of (Query []) = None) by reflexivity.
  assert (H2 : root_of (Query [menu; menu_data]) = Some menu) by reflexivity.
  destruct (constructor_fails_fast (Query []) (Some options20) page (measure None))
    as (Ha & _).
  destruct (constructor_fails_fast (Query [menu; menu_data]) (Some options20)
              plain_page (measure None)) as (_ & Hb & _).
  split; [exact H1 |]. split; [exact (Ha H1) |]. split; [exact H2 |].
  rewrite (Hb menu H2). vm_compute. reflexivity.
Defined.

(** X7. A widget constructed without options, on a target without data
    attributes and with the body as both boundaries, works with zero
    offsets throughout: the configured, the original and the recomputed
    top and bottom offsets are all 0, whatever the page measures. *)
Theorem default_construction_zero_offsets (sel : selector) (p : Page)
    (m : Measure) (w : Sticky) (e : Element) :
  new sel None p m = Return w ->
  root_of sel = Some e ->
  dataset e = ∅ ->
  (forall b, elOrSelector p (Str "body") "Top Element" = Return b ->
             is_body b = true) ->
  is_body (_topElement w) = true
  /\ is_body (_bottomElement w) = true
  /\ scroll_offsetTop w = Int 0
  /\ scroll_offsetBottom w = Int 0
  /\ get (_options w) "originalOffsetTop" = Num (Int 0)
  /\ get (_options w) "originalOffsetBottom" = Num (Int 0)
  /\ get (_options w) "offsetTop" = Num (Int 0)
  /\ get (_options w) "offsetBottom" = Num (Int 0).
Proof.
  intros Hnew Hroot Hd Hbody.
  destruct (constructor_shape sel None p m w Hnew) as (e' & t & b & Hr & Ht & Hb & ->).
  assert (e' = e) by congruence. subst e'.
  set (o := extendObj defaults [default ∅ None; Element_data e]) in *.
  assert (Ho : forall k, get o k = get defaults k).
  { intros k. unfold o. rewrite merged_get. unfold data_first.
    rewrite Hd, lookup_empty. simpl. rewrite lookup_empty. reflexivity. }
  rewrite Ho in Ht, Hb.
  assert (Bt : is_body t = true) by (apply Hbody; exact Ht).
  assert (Bb : is_body b = true) by (apply Hbody; exact Hb).
  set (w0 := assembled e o t b (computedWidth m)).
  assert (HO : ORIGINAL (_init m w0) = o)
    by (rewrite init_ORIGINAL; apply extendObj_copy).
  destruct (calculateOffsets_frame m (_calculateOriginalSizes m w0))
    as (_ & Ft & Fb & _).
  destruct (calculateOriginalSizes_original m w0) as (Hot & Hob).
  assert (U : is_undefined (get (_options w0) "originalOffsetTop") = true)
    by (unfold w0, assembled; cbn [_options]; rewrite Ho; vm_compute; reflexivity).
  rewrite U in Hot. specialize (Hob U).
  unfold w0 at 2, assembled in Hot. unfold w0 at 2, assembled in Hob.
  cbn [_options] in Hot, Hob. rewrite Ho in Hot, Hob.
  change (get defaults "offsetTop") with (Num (Int 0)) in Hot.
  change (get defaults "offsetBottom") with (Num (Int 0)) in Hob.
  rewrite parseInt_Int in Hot, Hob.
  destruct (calculateOffsets_options m (_calculateOriginalSizes m w0))
    as (Ct & Cb & Ck).
  unfold _init.
  rewrite Ft, Fb. cbn [_topElement _bottomElement _calculateOriginalSizes with_options].
  unfold w0 at 1 2, assembled. cbn [_topElement _bottomElement].
  split; [exact Bt |]. split; [exact Bb |].
  fold (_init m w0). unfold scroll_offsetTop, scroll_offsetBottom.
  rewrite HO, !Ho.
  split; [reflexivity |]. split; [reflexivity |].
  unfold _init. rewrite !Ck by discriminate.
  split; [exact Hot |]. split; [exact Hob |].
  rewrite Ct, Cb.
  change (_topElement (_calculateOriginalSizes m w0)) with t.
  change (_bottomElement (_calculateOriginalSizes m w0)) with b.
  rewrite Bt, Bb, Hot, Hob, parseInt_Int. split; reflexivity.
Qed.

Lemma default_construction_zero_offsets_witness :
  new (Node menu) None plain_page (measure (Some far))
  = Return (_init (measure (Some far))
              (assembled menu (extendObj defaults [∅; Element_data menu])
                 {| nodeName := "BODY" |} {| nodeName := "BODY" |} "200px"))
  /\ root_of (Node menu) = Some menu
  /\ dataset menu = ∅
  /\ (forall b, elOrSelector plain_page (Str "body") "Top Element" = Return b ->
                is_body b = true)
  /\ get (_options
            (_init (measure (Some far))
               (assembled menu (extendObj defaults [∅; Element_data menu])
                  {| nodeName := "BODY" |} {| nodeName := "BODY" |} "200px")))
        "offsetTop" = Num (Int 0).
Proof.
  assert (H1 : new (Node menu) None plain_page (measure (Some far))
               = Return (_init (measure (Some far))
                           (assembled menu (extendObj defaults [∅; Element_data menu])
                              {| nodeName := "BODY" |} {| nodeName := "BODY" |}
                              "200px")))
    by (vm_compute; reflexivity).
  assert (H2 : root_of (Node menu) = Some menu) by reflexivity.
  assert (H3 : dataset menu = ∅) by reflexivity.
  assert (H4 : forall b, elOrSelector plain_page (Str "body") "Top Element"
                         = Return b -> is_body b = true).
  { intros b Hb. simpl in Hb. injection Hb as <-. vm_compute. reflexivity. }
  destruct (default_construction_zero_offsets _ _ _ _ _ H1 H2 H3 H4)
    as (_ & _ & _ & _ & _ & _ & H & _).
  exact (conj H1 (conj H2 (conj H3 (conj H4 H)))).
Defined.

(** X8. The original width is what parseInt reads from the live computed
    width, whatever the width recorded at construction: the test that
    would turn an unreadable width into 0 is overwritten by the next
    assignment, so a computed width such as auto leaves NaN. The original
    top and left are the target's offsets. *)
Theorem original_width_from_live_style (m : Measure) (w : Sticky) :
  get (_options (_calculateOriginalSizes m w)) "originalWidth"
  = Num (parseInt (Str (computedWidth m)))
  /\ get (_options (_calculateOriginalSizes m w)) "originalTop"
     = Num (Int (offsetTop m))
  /\ get (_options (_calculateOriginalSizes m w)) "originalLeft"
     = Num (Int (offsetLeft m))
  /\ (parseInt (Str (computedWidth m)) = NaN ->
      get (_options (_calculateOriginalSizes m w)) "originalWidth" = Num NaN).
Proof.
  unfold _calculateOriginalSizes. cbn [_options with_options].
  set (o1 := if is_undefined (get (_options w) "originalOffsetTop") then _ else _).
  set (o2 := <["originalWidth" := _]> (<["originalLeft" := _]> (<["originalTop" := _]> o1))).
  assert (E : forall k, k <> "originalWidth" ->
                get match get o2 "originalWidth" with
                    | Num n => if isNaN n then <["originalWidth" := Num (Int 0)]> o2 else o2
                    | _ => o2
                    end k = get o2 k).
  { intros k Hk.
    destruct (get o2 "originalWidth") as [| | |[|z]| |]; simpl; try reflexivity.
    apply get_insert_ne. congruence. }
  rewrite get_insert_eq.
  rewrite !get_insert_ne by discriminate.
  rewrite !E by discriminate. unfold o2.
  rewrite !get_insert_ne by discriminate.
  rewrite get_insert_eq.
  rewrite get_insert_ne by discriminate. rewrite get_insert_eq.
  rewrite !parseInt_Int.
  repeat split. intros ->. reflexivity.
Qed.

Lemma original_width_from_live_style_witness :
  parseInt (Str (computedWidth auto_measure)) = NaN
  /\ get (_options (_calculateOriginalSizes auto_measure (widget menu options20)))
       "originalWidth" = Num NaN.
Proof.
  assert (H : parseInt (Str (computedWidth auto_measure)) = NaN)
    by (vm_compute; reflexivity).
  destruct (original_width_from_live_style auto_measure (widget menu options20))
    as (_ & _ & _ & Hn).
  exact (conj H (Hn H)).
Defined.

(** X9. After a resize the target carries no inline declaration other than
    position and top: whatever inline style it had before, from the widget
    or from the page's author, is gone. *)
Theorem resize_wipes_inline_style (m : Measure) (w : Sticky) (prop : string) :
  prop <> "position" -> prop <> "top" ->
  inline prop (resized m w) = None.
Proof.
  intros Hp Ht. unfold resized.
  destruct (calculateOffsets_frame m
              (_calculateOriginalSizes m
                 (with_root (removeAttribute_style (_rootElement w)) w)))
    as (_ & _ & _ & Hr).
  unfold inline. rewrite Hr.
  unfold throttled_onScroll.
  destruct (throttled m) as [l|]; [| reflexivity].
  unfold _onScroll. cbn [_rootElement _calculateOriginalSizes with_options with_root].
  destruct (narrow l); [reflexivity |].
  unfold place.
  destruct (cond_top l _).
  { cbn. rewrite !lookup_insert_ne by congruence. apply lookup_empty. }
  destruct (cond_bottom l).
  { destruct (sub _ _); cbn; rewrite !lookup_insert_ne by congruence;
      apply lookup_empty. }
  destruct (cond_screen l _); [| reflexivity].
  destruct (scroll_offsetTop _); cbn; rewrite !lookup_insert_ne by congruence;
    apply lookup_empty.
Qed.

Lemma resize_wipes_inline_style_witness :
  "color"%string <> "position"%string /\ "color"%string <> "top"%string
  /\ inline "color" (widget menu_styled options20) = Some "red"
  /\ inline "color" (resized (measure (Some far)) (widget menu_styled options20))
     = None.
Proof.
  assert (H1 : "color"%string <> "position"%string) by discriminate.
  assert (H2 : "color"%string <> "top"%string) by discriminate.
  assert (H3 : inline "color" (widget menu_styled options20) = Some "red")
    by (vm_compute; reflexivity).
  exact (conj H1 (conj H2 (conj H3
           (resize_wipes_inline_style (measure (Some far))
              (widget menu_styled options20) "color" H1 H2)))).
Defined.
End ConstructionMore.

Section ResizeMore.
Import JS InkSticky InkStickyTimers Spec Spec2.

Lemma calculateOriginalSizes_keeps (m : Measure) (w : Sticky) :
  is_undefined (get (_options w) "originalOffsetTop") = false ->
  get (_options (_calculateOriginalSizes m w)) "originalOffsetBottom"
  = get (_options w) "originalOffsetBottom".
Proof.
  intros U. unfold _calculateOriginalSizes. cbn [_options with_options].
  rewrite U.
  set (o2 := <["originalWidth" := _]> (<["originalLeft" := _]>
               (<["originalTop" := _]> (_options w)))).
  rewrite get_insert_ne by discriminate.
  assert (E : get o2 "originalOffsetBottom" = get (_options w) "originalOffsetBottom")
    by (unfold o2; rewrite !get_insert_ne by discriminate; reflexivity).
  destruct (get o2 "originalWidth") as [| | |[|z]| |]; simpl; try exact E.
  rewrite get_insert_ne by discriminate. exact E.
Qed.

Lemma defined_after_original_sizes (m : Measure) (w : Sticky) :
  is_undefined (get (_options (_calculateOriginalSizes m w)) "originalOffsetTop")
  = false.
Proof.
  destruct (calculateOriginalSizes_original m w) as (H & _). rewrite H.
  destruct (is_undefined (get (_options w) "originalOffsetTop")) eqn:U;
    [reflexivity | exact U].
Qed.

Lemma defined_after_init (m : Measure) (w : Sticky) :
  is_undefined (get (_options (_init m w)) "originalOffsetTop") = false.
Proof.
  unfold _init.
  destruct (calculateOffsets_options m (_calculateOriginalSizes m w))
    as (_ & _ & Hk).
  rewrite Hk by discriminate. apply defined_after_original_sizes.
Qed.

Lemma resized_original_bottom (m : Measure) (w : Sticky) :
  is_undefined (get (_options w) "originalOffsetTop") = false ->
  get (_options (resized m w)) "originalOffsetBottom"
  = get (_options w) "originalOffsetBottom".
Proof.
  intros H. unfold resized.
  destruct (calculateOffsets_options m
              (_calculateOriginalSizes m
                 (with_root (removeAttribute_style (_rootElement w)) w)))
    as (_ & _ & Hk).
  rewrite Hk by discriminate.
  rewrite calculateOriginalSizes_keeps by exact H. reflexivity.
Qed.

(** X10. Whatever the configuration, the two original offsets an initialised
    widget holds are not touched again: after any run of resizes, with
    any measures, originalOffsetTop and originalOffsetBottom are what the
    initialisation left. *)
Theorem original_offsets_fixed_at_init (m0 : Measure) (w : Sticky)
    (ms : list Measure) :
  get (_options (resizes ms (_init m0 w))) "originalOffsetTop"
  = get (_options (_init m0 w)) "originalOffsetTop"
  /\ get (_options (resizes ms (_init m0 w))) "originalOffsetBottom"
     = get (_options (_init m0 w)) "originalOffsetBottom".
Proof.
  pose proof (defined_after_init m0 w) as U.
  generalize dependent (_init m0 w). clear w. intros w U.
  split; [apply resizes_original; exact U |].
  revert w U. induction ms as [|m ms IH]; intros w U; [reflexivity |].
  unfold resizes in *. simpl.
  rewrite IH.
  - apply resized_original_bottom. exact U.
  - rewrite resized_original by exact U. exact U.
Qed.

(** *** The resize timer *)

Lemma step_at_most_latest (t : Timed) (e : event) :
  at_most_latest t -> at_most_latest (step t e).
Proof.
  intros [H | (id & H & Hr)]; destruct e as [|m]; simpl.
  - right. exists (next_timer t). unfold _onResize. rewrite H. simpl.
    destruct (_resizeTimeout t); split; reflexivity.
  - left. unfold timeout. rewrite H. exact H.
  - right. exists (next_timer t). unfold _onResize. rewrite H, Hr. simpl.
    rewrite Pos.eqb_refl. simpl. split; reflexivity.
  - left. unfold timeout. rewrite H. reflexivity.
Qed.

Lemma run_at_most_latest (es : list event) (t : Timed) :
  at_most_latest t -> at_most_latest (run es t).
Proof.
  revert t. induction es as [|e es IH]; intros t H; [exact H |].
  unfold run in *. simpl. apply IH. apply step_at_most_latest. exact H.
Qed.

Lemma burst_at_most_latest (k : nat) (t : Timed) :
  at_most_latest t ->
  widget (run (repeat Resize (S k)) t) = widget t
  /\ length (timers (run (repeat Resize (S k)) t)) = 1%nat.
Proof.
  revert t. induction k as [|k IH]; intros t H.
  - destruct (step_at_most_latest t Resize H) as [E | (id & E & _)].
    + unfold _onResize in E. simpl in E.
      destruct (match _resizeTimeout t with Some _ => _ | None => _ end); discriminate.
    + unfold run. simpl. simpl in E. rewrite E. split; reflexivity.
  - change (repeat Resize (S (S k))) with (Resize :: repeat Resize (S k)).
    unfold run in *. cbn [fold_left].
    destruct (IH (step t Resize) (step_at_most_latest t Resize H)) as (Hw & Hl).
    rewrite Hw, Hl. split; reflexivity.
Qed.

(** X11. The resize handler debounces: however resize events and timer
    expirations interleave after construction, at most one timer is
    pending, and a burst of one or more resize events followed by the
    expiration runs the recomputation exactly once, on the measures of that
    time, leaving no timer behind. *)
Theorem resize_is_debounced (w : Sticky) (es : list event) (k : nat)
    (m : Measure) :
  (length (timers (run es (started w))) <= 1)%nat
  /\ widget (run (repeat Resize (S k) ++ [Timeout m]) (run es (started w)))
     = resized m (widget (run es (started w)))
  /\ timers (run (repeat Resize (S k) ++ [Timeout m]) (run es (started w))) = [].
Proof.
  assert (H : at_most_latest (run es (started w)))
    by (apply run_at_most_latest; left; reflexivity).
  split.
  - destruct H as [-> | (id & -> & _)]; simpl; lia.
  - destruct (burst_at_most_latest k _ H) as (Hw & Hl).
    unfold run in *. rewrite fold_left_app. cbn [fold_left step].
    unfold timeout.
    destruct (timers (fold_left step (repeat Resize (S k))
                        (fold_left step es (started w)))) as [|id [|id' rest]];
      try discriminate.
    cbn [widget timers]. rewrite Hw. split; reflexivity.
Qed.
End ResizeMore.

(** ** More about the sniffer *)

Section SnifferMore.
Import JS RegExp InkBrowser InkBrowserPage Spec Spec2 Examples Examples2.

(** The tests of the sniffer, rewritten as occurrences in the lower-cased
    agent, and one case per test. *)
Ltac by_family ua :=
  unfold detect, _sniffUserAgent, family_by_precedence;
  unfold re_applewebkit, re_opera, re_konqueror, re_gecko;
  rewrite !test_Lit, test_chrome_or_crios, test_msie_or_trident;
  fold (mentions "applewebkit/" ua) (mentions "chrome/" ua)
    (mentions "crios/" ua) (mentions "opera" ua)
    (mentions "konqueror" ua) (mentions "gecko" ua);
  destruct (mentions "applewebkit/" ua);
    [destruct (mentions "chrome/" ua || mentions "crios/" ua)
    |destruct (mentions "opera" ua);
       [|destruct (mentions "konqueror" ua);
           [|destruct (mentions "msie" ua || mentions "trident" ua);
               [|destruct (mentions "gecko" ua)]]]].

(** X12. The sniffer looks at the lower-cased agent only: two agents that differ
    in letter case get the same flags, model, version and prefixes, while
    the userAgent field keeps the agent exactly as it was given. *)
Theorem sniffer_ignores_case (ua1 ua2 : string) (this : Browser) :
  toLowerCase ua1 = toLowerCase ua2 ->
  profile (_sniffUserAgent ua1 this) = profile (_sniffUserAgent ua2 this)
  /\ userAgent (_sniffUserAgent ua1 this) = Some ua1.
Proof.
  intros H. unfold _sniffUserAgent. rewrite H.
  generalize (toLowerCase ua2). intros s.
  destruct (test re_applewebkit s).
  { destruct (test re_chrome_or_crios s); [split; reflexivity |].
    destruct (match_group rVersion 1 s); split; reflexivity. }
  destruct (test re_opera s); [split; reflexivity |].
  destruct (test re_konqueror s); [split; reflexivity |].
  destruct (test re_msie_or_trident s).
  { destruct (match_group re_rv_ie 1 s); split; reflexivity. }
  destruct (test re_gecko s); [| split; reflexivity].
  destruct (match_group re 1 s); [split; reflexivity |].
  destruct (test reVersion s); split; reflexivity.
Qed.

Lemma sniffer_ignores_case_witness :
  toLowerCase "Mozilla/4.0 (compatible; MSIE 8.0; Windows NT 6.1)"
  = toLowerCase "MOZILLA/4.0 (COMPATIBLE; msie 8.0; WINDOWS nt 6.1)"
  /\ profile (detect "Mozilla/4.0 (compatible; MSIE 8.0; Windows NT 6.1)")
     = profile (detect "MOZILLA/4.0 (COMPATIBLE; msie 8.0; WINDOWS nt 6.1)").
Proof.
  assert (H : toLowerCase "Mozilla/4.0 (compatible; MSIE 8.0; Windows NT 6.1)"
              = toLowerCase "MOZILLA/4.0 (COMPATIBLE; msie 8.0; WINDOWS nt 6.1)")
    by (vm_compute; reflexivity).
  exact (conj H (proj1 (sniffer_ignores_case _ _ initial H))).
Defined.

(** X13. The vendor prefixes follow the family: -webkit- and Webkit for Chrome
    and Safari, -o- and O for Opera, -khtml- and Khtml for Konqueror, -ms-
    and ms for Explorer, -moz- and Moz for Gecko, and both stay undefined
    for an agent no pattern matches. *)
Theorem prefixes_follow_family (ua : string) :
  (cssPrefix (detect ua), domPrefix (detect ua))
  = prefixes_of (family_by_precedence ua).
Proof.
  by_family ua; try reflexivity.
  - destruct (match_group rVersion 1 _); reflexivity.
  - destruct (match_group re 1 _); [| destruct (test reVersion _)]; reflexivity.
Qed.

(** X14. The model is the sentinel false exactly for an agent no pattern
    matches, and then the version is the sentinel too. For a matched agent
    the version can stay the sentinel only in the Gecko family, for an
    agent without a known product name. *)
Theorem model_false_iff_unmatched (ua : string) :
  (model (detect ua) = None <-> family_by_precedence ua = Unknown)
  /\ (family_by_precedence ua = Unknown -> version (detect ua) = None)
  /\ (version (detect ua) = None ->
      family_by_precedence ua = Unknown
      \/ (family_by_precedence ua = Gecko
          /\ model (detect ua) = Some "mozilla")).
Proof.
  by_family ua;
    try (split; [split; intros; discriminate
                | split; [intros; discriminate | intros; discriminate]]).
  - destruct (match_group rVersion 1 _);
      (split; [split; intros; discriminate
              | split; [intros; discriminate | intros; discriminate]]).
  - destruct (match_group re_rv_ie 1 _);
      (split; [split; intros; discriminate
              | split; [intros; discriminate | intros; discriminate]]).
  - destruct (match_group re 1 _); [| destruct (test reVersion _)];
      (split; [split; intros; discriminate
              | split; [intros; discriminate
                       | intros; try discriminate; right; split; reflexivity]]).
  - split; [split; reflexivity | split; [reflexivity | left; reflexivity]].
Qed.

Lemma model_false_iff_unmatched_witness :
  family_by_precedence "Lynx/2.8.8dev.3 libwww-FM/2.14" = Unknown
  /\ model (detect "Lynx/2.8.8dev.3 libwww-FM/2.14") = None
  /\ version (detect "Lynx/2.8.8dev.3 libwww-FM/2.14") = None.
Proof.
  assert (H : family_by_precedence "Lynx/2.8.8dev.3 libwww-FM/2.14" = Unknown)
    by (vm_compute; reflexivity).
  destruct (model_false_iff_unmatched "Lynx/2.8.8dev.3 libwww-FM/2.14")
    as (H1 & H2 & _).
  exact (conj H (conj (proj2 H1 H) (H2 H))).
Defined.

(** *** Patterns as scans *)

Lemma star_maximal {R : Type} (p : ascii -> bool) (s : string)
    (k : string -> option R) :
  (forall u, k u <> None) -> star p s k = k (drop_while p s).
Proof.
  intros Hk. induction s as [|c s IH]; [reflexivity |]. simpl.
  destruct (p c); [| reflexivity]. rewrite IH.
  destruct (k (drop_while p s)) eqn:E; [reflexivity | destruct (Hk _ E)].
Qed.

Lemma take_drop_while (p : ascii -> bool) (s : string) :
  s = take_while p s +:+ drop_while p s.
Proof.
  induction s as [|c s IH]; [reflexivity |]. simpl.
  destruct (p c); [| reflexivity].
  change (String c s = String c (take_while p s +:+ drop_while p s)).
  rewrite <- IH. reflexivity.
Qed.

Lemma literal_consumed (p s s' : string) :
  literal same_char p s = Some s' -> s = p +:+ s'.
Proof.
  revert s. induction p as [|a p IH]; intros s H.
  - injection H as ->. reflexivity.
  - destruct s as [|b s]; [discriminate |]. simpl in H.
    unfold same_char in H. destruct (Ascii.eqb_spec a b) as [->|]; [| discriminate].
    change (String b s = String b (p +:+ s')). rewrite <- (IH s H). reflexivity.
Qed.

(** A literal followed by a captured run of a class, matched at the start. *)
Lemma anchored_here (p : string) (cls : ascii -> bool) (s : string) :
  match_here (Seq (Lit p) (Group 1 (Plus cls))) s
  = match literal same_char p s with
    | Some (String a v) =>
        if cls a
        then Some (drop_while cls v, <[1%nat := String a (take_while cls v)]> ∅)
        else None
    | _ => None
    end.
Proof.
  unfold match_here. cbn [run].
  destruct (literal same_char p s) as [[|a v]|]; try reflexivity.
  destruct (cls a); [| reflexivity].
  rewrite star_maximal by discriminate.
  assert (E : consumed (String a v) (drop_while cls v) = String a (take_while cls v)).
  { rewrite (take_drop_while cls v) at 1.
    change (String a (take_while cls v +:+ drop_while cls v))
      with (String a (take_while cls v) +:+ drop_while cls v).
    apply consumed_app. }
  rewrite E. reflexivity.
Qed.

(** Such a pattern finds what a left-to-right scan finds. *)
Lemma match_group_first_run (p : string) (cls : ascii -> bool) (s : string) :
  match_group (Seq (Lit p) (Group 1 (Plus cls))) 1 s = first_run p cls s.
Proof.
  unfold match_group, exec. generalize EmptyString as pre.
  induction s as [|c s IH]; intros pre; cbn [exec_from first_run];
    rewrite anchored_here.
  - destruct (literal same_char p EmptyString) as [[|a v]|]; try reflexivity.
    destruct (cls a); reflexivity.
  - destruct (literal same_char p (String c s)) as [[|a v]|]; try apply IH.
    destruct (cls a); [| apply IH].
    cbn. unfold group. cbn. rewrite lookup_insert_eq. reflexivity.
Qed.

(** X15. In the Safari branch the version is the run after the first version/
    that is followed by a character other than a space or a closing
    parenthesis; without such a place it is what the applewebkit/ pattern
    leaves. *)
Theorem safari_version_scan (ua : string) :
  family_by_precedence ua = Safari ->
  model (detect ua) = Some "safari"
  /\ version (detect ua)
     = Some match first_run "version/" (none_of [")"; " "]%char) (toLowerCase ua) with
            | Some v => v
            | None => replace_by_group re_applewebkit_version 2 (toLowerCase ua)
            end.
Proof.
  intros H. revert H. by_family ua; intros H; try discriminate H.
  unfold rVersion. rewrite match_group_first_run.
  destruct (first_run _ _ _); split; reflexivity.
Qed.

Lemma safari_version_scan_witness :
  family_by_precedence ua_safari = Safari
  /\ version (detect ua_safari) = Some "7.0".
Proof.
  assert (H : family_by_precedence ua_safari = Safari) by (vm_compute; reflexivity).
  destruct (safari_version_scan ua_safari H) as (_ & Hv).
  split; [exact H |]. rewrite Hv. vm_compute. reflexivity.
Defined.

(** X16. In the Explorer branch the version is the run of digits and dots
    after the first rv: that is followed by one (the form of Explorer 11);
    an agent without such a place falls back to the msie pattern. *)
Theorem explorer_version_scan (ua : string) :
  family_by_precedence ua = Explorer ->
  model (detect ua) = Some "ie"
  /\ version (detect ua)
     = Some match first_run "rv:" digit_or_dot (toLowerCase ua) with
            | Some v => v
            | None => replace_by_group re_msie_version 2 (toLowerCase ua)
            end.
Proof.
  intros H. revert H. by_family ua; intros H; try discriminate H.
  unfold re_rv_ie. rewrite match_group_first_run.
  destruct (first_run _ _ _); split; reflexivity.
Qed.

Lemma explorer_version_scan_witness :
  family_by_precedence ua_ie11 = Explorer
  /\ version (detect ua_ie11) = Some "11.0"
  /\ family_by_precedence ua_ie8 = Explorer
  /\ version (detect ua_ie8) = Some "8.0".
Proof.
  assert (H : family_by_precedence ua_ie11 = Explorer) by (vm_compute; reflexivity).
  assert (H' : family_by_precedence ua_ie8 = Explorer) by (vm_compute; reflexivity).
  destruct (explorer_version_scan ua_ie11 H) as (_ & Hv).
  destruct (explorer_version_scan ua_ie8 H') as (_ & Hv').
  split; [exact H |]. split; [rewrite Hv; vm_compute; reflexivity |].
  split; [exact H' |]. rewrite Hv'. vm_compute. reflexivity.
Defined.

(** *** The Gecko products *)

Lemma run_alternatives {R : Type} (others : list string) :
  forall (r0 : regex) (L : list string),
    (forall s c (k : string -> gmap nat string -> option R) x,
        run r0 s c k = Some x ->
        exists p s', In p L /\ literal same_char p s = Some s' /\ k s' c = Some x) ->
    forall s c (k : string -> gmap nat string -> option R) x,
      run (fold_left (fun r s => Alt r (Lit s)) others r0) s c k = Some x ->
      exists p s', In p (L ++ others)
                   /\ literal same_char p s = Some s' /\ k s' c = Some x.
Proof.
  induction others as [|o others IH]; intros r0 L H0 s c k x Hx.
  - rewrite app_nil_r. exact (H0 s c k x Hx).
  - simpl in Hx.
    destruct (IH (Alt r0 (Lit o)) (L ++ [o])) with (s := s) (c := c) (k := k) (x := x)
      as (p & s' & Hin & Hl & Hk); [| exact Hx |].
    + intros s1 c1 k1 x1 H1. cbn [run] in H1.
      destruct (run r0 s1 c1 k1) eqn:E.
      * injection H1 as ->. destruct (H0 _ _ _ _ E) as (p & s' & Hin & Hl & Hk).
        exists p, s'. split; [apply in_or_app; left; exact Hin | split; assumption].
      * destruct (literal same_char o s1) as [s'|] eqn:El; [| discriminate].
        exists o, s'. split; [apply in_or_app; right; left; reflexivity |].
        split; [exact El | exact H1].
    + exists p, s'. rewrite <- app_assoc in Hin. split; [exact Hin | split; assumption].
Qed.

Lemma product_here (s s' : string) (c : gmap nat string) :
  match_here re s = Some (s', c) ->
  exists p, In p gecko_products /\ c !! 1%nat = Some p.
Proof.
  unfold match_here, re, any_of. cbn [run]. intros H.
  assert (Hbase : forall s0 c0
                    (k0 : string -> gmap nat string -> option (string * gmap nat string))
                    x0,
             run (Lit "camino") s0 c0 k0 = Some x0 ->
             exists p s1, In p ["camino"%string]
                          /\ literal same_char p s0 = Some s1 /\ k0 s1 c0 = Some x0).
  { intros s0 c0 k0 x0 H0. cbn [run] in H0.
    destruct (literal same_char "camino" s0) as [s1|] eqn:E; [| discriminate].
    exists "camino"%string, s1. split; [left; reflexivity | split; assumption]. }
  destruct (run_alternatives _ _ _ Hbase _ _ _ _ H) as (p & s1 & Hin & Hl & Hk).
  exists p. split; [exact Hin |].
  injection Hk as _ <-. rewrite lookup_insert_eq.
  rewrite (literal_consumed _ _ _ Hl), consumed_app. reflexivity.
Qed.

Lemma product_found (s m : string) :
  match_group re 1 s = Some m -> In m gecko_products.
Proof.
  unfold match_group, exec. generalize EmptyString as pre.
  induction s as [|a s IH]; intros pre; cbn [exec_from].
  - destruct (match_here re EmptyString) as [[s' c]|] eqn:E; [| discriminate].
    destruct (product_here _ _ _ E) as (p & Hin & Hc).
    cbn. unfold group. cbn. rewrite Hc. intros H. injection H as <-. exact Hin.
  - destruct (match_here re (String a s)) as [[s' c]|] eqn:E; [| apply IH].
    destruct (product_here _ _ _ E) as (p & Hin & Hc).
    cbn. unfold group. cbn. rewrite Hc. intros H. injection H as <-. exact Hin.
Qed.

(** X17. In the Gecko branch the model is one of the fourteen product names the
    branch lists, or mozilla when none of them occurs in the agent. *)
Theorem gecko_model_is_listed (ua : string) :
  family_by_precedence ua = Gecko ->
  exists m : string,
    model (detect ua) = Some m
    /\ (In m gecko_products \/ m = "mozilla"%string).
Proof.
  intros H. revert H. by_family ua; intros H; try discriminate H.
  destruct (match_group re 1 _) as [m|] eqn:E.
  - exists m. split; [reflexivity | left; exact (product_found _ _ E)].
  - exists "mozilla"%string.
    destruct (test reVersion _); (split; [reflexivity | right; reflexivity]).
Qed.

Lemma gecko_model_is_listed_witness :
  family_by_precedence ua_firefox = Gecko
  /\ model (detect ua_firefox) = Some "firefox"
  /\ In "firefox"%string gecko_products.
Proof.
  assert (H : family_by_precedence ua_firefox = Gecko) by (vm_compute; reflexivity).
  destruct (gecko_model_is_listed ua_firefox H) as (m & Hm & _).
  split; [exact H |]. split; [vm_compute; reflexivity |].
  simpl. tauto.
Defined.

(** *** Chrome without an anchor *)

Lemma star_none {R : Type} (p : ascii -> bool) (s : string)
    (k : string -> option R) :
  some_suffix (fun u => bool_decide (k u <> None)) s = false ->
  star p s k = None.
Proof.
  induction s as [|c s IH]; simpl; intros H;
    apply orb_false_iff in H as [H1 H2]; apply bool_decide_eq_false in H1.
  - destruct (k EmptyString); [exfalso; apply H1; discriminate | reflexivity].
  - rewrite (IH H2).
    destruct (k (String c s)); [exfalso; apply H1; discriminate |].
    destruct (p c); reflexivity.
Qed.

Lemma some_suffix_tail (f : string -> bool) (c : ascii) (s : string) :
  some_suffix f (String c s) = false -> some_suffix f s = false.
Proof. simpl. intros H. apply orb_false_iff in H as [_ H]. exact H. Qed.

Lemma chrome_version_no_match (s : string) :
  some_suffix version_marker s = false ->
  exec re_chrome_version s = None.
Proof.
  unfold exec. generalize EmptyString as pre.
  assert (Hhere : forall u, some_suffix version_marker u = false ->
                            match_here re_chrome_version u = None).
  { intros u Hu. unfold match_here, re_chrome_version, around. cbn [run].
    apply star_none. revert Hu. apply some_suffix_mono. intros v Hv.
    apply bool_decide_eq_true in Hv. unfold version_marker.
    destruct (literal same_char "chrome/" v) as [[|a v']|]; try congruence.
    destruct (non_space a); [reflexivity | congruence]. }
  induction s as [|c s IH]; intros pre H; cbn [exec_from];
    rewrite (Hhere _ H); [reflexivity |].
  apply IH. exact (some_suffix_tail _ _ _ H).
Qed.

Lemma no_chrome_no_marker (s : string) :
  contains "chrome/" s = false -> some_suffix version_marker s = false.
Proof.
  unfold contains. apply some_suffix_mono. intros u Hu.
  rewrite <- literal_prefix. unfold version_marker in Hu.
  destruct (literal same_char "chrome/" u); [reflexivity | discriminate].
Qed.

(** X18. Every WebKit agent that mentions crios/ but not chrome/ (Chrome for
    iOS) is classified as Chrome and gets the whole lower-cased agent as
    its version: the version pattern has nothing to anchor at and the
    replacement leaves the text as it is. *)
Theorem crios_version_is_whole_agent (ua : string) :
  mentions "applewebkit/" ua = true ->
  mentions "crios/" ua = true ->
  mentions "chrome/" ua = false ->
  CHROME (detect ua) = true
  /\ model (detect ua) = Some "chrome"
  /\ version (detect ua) = Some (toLowerCase ua).
Proof.
  intros Hw Hc Hn.
  destruct (chrome_classified ua Hw (or_intror Hc)) as (H1 & _ & H3 & H4).
  split; [exact H1 |]. split; [exact H3 |].
  rewrite H4. unfold replace_by_group.
  rewrite chrome_version_no_match; [reflexivity |].
  apply no_chrome_no_marker. exact Hn.
Qed.

Lemma crios_version_is_whole_agent_witness :
  mentions "applewebkit/" ua_crios = true
  /\ mentions "crios/" ua_crios = true
  /\ mentions "chrome/" ua_crios = false
  /\ version (detect ua_crios) = Some (toLowerCase ua_crios).
Proof.
  assert (H1 : mentions "applewebkit/" ua_crios = true) by (vm_compute; reflexivity).
  assert (H2 : mentions "crios/" ua_crios = true) by (vm_compute; reflexivity).
  assert (H3 : mentions "chrome/" ua_crios = false) by (vm_compute; reflexivity).
  destruct (crios_version_is_whole_agent ua_crios H1 H2 H3) as (_ & _ & H).
  exact (conj H1 (conj H2 (conj H3 H))).
Defined.

Lemma chrome_version_is_token_witness :
  mentions "applewebkit/" ua_chrome = true
  /\ toLowerCase ua_chrome
     = ("mozilla/5.0 (x11; linux x86_64) applewebkit/537.36 (khtml, like gecko) "
        +:+ "chrome/" +:+ "30.0.1599.101 safari/537.36")%string
  /\ all_chars dot (toLowerCase ua_chrome) = true
  /\ token "30.0.1599.101 safari/537.36" <> EmptyString
  /\ some_suffix version_marker ("hrome/" +:+ "30.0.1599.101 safari/537.36") = false
  /\ version (detect ua_chrome) = Some "30.0.1599.101".
Proof.
  assert (H1 : mentions "applewebkit/" ua_chrome = true) by (vm_compute; reflexivity).
  assert (H2 : toLowerCase ua_chrome
               = ("mozilla/5.0 (x11; linux x86_64) applewebkit/537.36 (khtml, like gecko) "
                  +:+ "chrome/" +:+ "30.0.1599.101 safari/537.36")%string)
    by (vm_compute; reflexivity).
  assert (H3 : all_chars dot (toLowerCase ua_chrome) = true)
    by (vm_compute; reflexivity).
  assert (H4 : token "30.0.1599.101 safari/537.36" <> EmptyString)
    by (vm_compute; discriminate).
  assert (H5 : some_suffix version_marker
                 ("hrome/" +:+ "30.0.1599.101 safari/537.36") = false)
    by (vm_compute; reflexivity).
  destruct (chrome_version_is_token ua_chrome _ _ H1 H2 H3 H4 H5)
    as (_ & _ & _ & H).
  split; [exact H1 |]. split; [exact H2 |]. split; [exact H3 |].
  split; [exact H4 |]. split; [exact H5 |].
  rewrite H. vm_compute. reflexivity.
Defined.

(** *** The referrer and the diagnostic dump *)

Lemma append_associative (a b c : string) : (a +:+ b) +:+ c = a +:+ b +:+ c.
Proof.
  induction a as [|x a IH]; [reflexivity |].
  change (String x ((a +:+ b) +:+ c) = String x (a +:+ b +:+ c)).
  rewrite IH. reflexivity.
Qed.

(** X20. The dump lists five families and leaves Chrome out: for a Chrome
    agent every listed flag reads false although the model reads chrome,
    and the last line shows the agent as it was given, not lower-cased. *)
Theorem debug_lists_no_flag_for_chrome (ua : string) :
  family_by_precedence ua = Chrome ->
  debug (detect ua)
  = ("known browsers: (ie, gecko, opera, safari, konqueror) " +:+ LF
     +:+ "false,false,false,false,false" +:+ LF
     +:+ "model -> chrome" +:+ LF
     +:+ "version -> " +:+ replace_by_group re_chrome_version 2 (toLowerCase ua)
     +:+ LF +:+ LF
     +:+ "original UA -> " +:+ ua)%string.
Proof.
  intros H. revert H. by_family ua; intros H; try discriminate H.
  unfold debug.
  cbn [IE GECKO OPERA SAFARI KONQUEROR model version userAgent set_version
       set_model set_CHROME set_prefixes set_userAgent initial map join
       to_string string_or_false].
  rewrite !append_associative. reflexivity.
Qed.

Lemma debug_lists_no_flag_for_chrome_witness :
  family_by_precedence ua_chrome = Chrome
  /\ debug (detect ua_chrome)
     = ("known browsers: (ie, gecko, opera, safari, konqueror) " +:+ LF
        +:+ "false,false,false,false,false" +:+ LF
        +:+ "model -> chrome" +:+ LF
        +:+ "version -> 30.0.1599.101" +:+ LF +:+ LF
        +:+ "original UA -> " +:+ ua_chrome)%string.
Proof.
  assert (H : family_by_precedence ua_chrome = Chrome) by (vm_compute; reflexivity).
  split; [exact H |].
  rewrite (debug_lists_no_flag_for_chrome ua_chrome H). vm_compute. reflexivity.
Defined.

Lemma escape_char_safe (c : ascii) :
  all_chars (fun a => escape_keeps a || Ascii.eqb a "%") (escape_char c) = true
  /\ (1 <= String.length (escape_char c))%nat.
Proof.
  destruct c as [[] [] [] [] [] [] [] []]; vm_compute; split;
    first [reflexivity | lia].
Qed.

Lemma escape_safe (s : string) :
  all_chars (fun a => escape_keeps a || Ascii.eqb a "%") (escape s) = true
  /\ (String.length s <= String.length (escape s))%nat.
Proof.
  induction s as [|c s [IH1 IH2]]; [split; reflexivity |].
  cbn [escape]. rewrite all_chars_app, length_append, IH1.
  destruct (escape_char_safe c) as [H1 H2]. rewrite H1.
  split; [reflexivity | simpl; lia].
Qed.

(** X21. The stored referrer is the sentinel false exactly when the document
    has no referrer; otherwise it is a text that is not empty, at least as
    long as the referrer, and made only of letters, digits, the characters
    of @*_+-./ and the percent sign. *)
Theorem referrer_false_or_escaped (referrer : string) :
  (setReferrer referrer = None <-> referrer = EmptyString)
  /\ forall e : string,
       setReferrer referrer = Some e ->
       e <> EmptyString
       /\ (String.length referrer <= String.length e)%nat
       /\ all_chars (fun a => escape_keeps a || Ascii.eqb a "%") e = true.
Proof.
  destruct referrer as [|c r].
  - split; [split; reflexivity | discriminate].
  - assert (E : setReferrer (String c r) = Some (escape (String c r))).
    { unfold setReferrer. cbn [truthy String.eqb negb andb String.length].
      destruct (Z.of_nat (S (String.length r))) eqn:Ez; try reflexivity; lia. }
    rewrite E. split; [split; discriminate |].
    intros e He.
    assert (He' : escape (String c r) = e) by congruence.
    destruct (escape_safe (String c r)) as [H1 H2].
    rewrite He' in H1, H2. clear He He' E.
    split; [intros ->; simpl in H2; lia | split; assumption].
Qed.

Lemma referrer_false_or_escaped_witness :
  setReferrer "http://a.b/c d?e=1" = Some "http%3A//a.b/c%20d%3Fe%3D1"
  /\ "http%3A//a.b/c%20d%3Fe%3D1"%string <> EmptyString.
Proof.
  assert (H : setReferrer "http://a.b/c d?e=1" = Some "http%3A//a.b/c%20d%3Fe%3D1")
    by (vm_compute; reflexivity).
  destruct (referrer_false_or_escaped "http://a.b/c d?e=1") as (_ & H2).
  destruct (H2 _ H) as (Hne & _).
  exact (conj H Hne).
Defined.
End SnifferMore.
